(** * heybeauty-mcp: the HeyBeauty API client and the MCP request handlers

    A shallow embedding of [src/heybeauty.ts] (class [HeyBeautyClient]) and of
    the server entry point that registers the six MCP request handlers.

    The code is asynchronous JavaScript that talks to a remote HTTP service.
    It is embedded in a small monad [M]: a computation reads the host
    platform (the remote service behind [fetch], the URL parser, the numeric
    reading of strings), appends the effects it performs to a trace, and
    completes normally or throws.  Values that the code receives untyped
    (parsed JSON bodies, tool arguments) are values of [JsVal]. *)

From Stdlib Require Import String Ascii ZArith List Bool Lia DecimalString.
Import ListNotations.
Open Scope string_scope.
Open Scope Z_scope.
Set Warnings "-register-all".

(** ** JavaScript values and the coercions the program relies on *)
Module Js.

(** JSON-shaped values plus [undefined].  Numbers are the integers that a
    double represents exactly and prints in plain decimal (the safe range);
    objects are association lists in insertion order, where the first binding
    of a key is the property's value. *)
Inductive JsVal : Type :=
| JUndefined
| JNull
| JBool (b : bool)
| JNum (n : Z)
| JStr (s : string)
| JArr (items : list JsVal)
| JObj (fields : list (string * JsVal)).

(** Everything the program throws or catches is an [Error] object; the
    handlers only read its [message]. *)
Inductive JsError : Type :=
| Error (message : string)
| TypeError (message : string)
| SyntaxError (message : string).

Definition message (e : JsError) : string :=
  match e with
  | Error m | TypeError m | SyntaxError m => m
  end.

(** Completion of an evaluation step: a value, or a thrown error. *)
Inductive Completion (A : Type) : Type :=
| Normal (a : A)
| Throw (e : JsError).
Arguments Normal {A} a.
Arguments Throw {A} e.

(** [ToBoolean]: the falsy values are undefined, null, false, 0 and the
    empty string. *)
Definition ToBoolean (v : JsVal) : bool :=
  match v with
  | JUndefined | JNull => false
  | JBool b => b
  | JNum n => negb (n =? 0)
  | JStr s => negb (s =? "")%string
  | JArr _ | JObj _ => true
  end.

(** [a || b] *)
Definition or_else (a b : JsVal) : JsVal :=
  if ToBoolean a then a else b.

(** Truthiness of a value typed [string]. *)
Definition nonempty (s : string) : bool := negb (s =? "")%string.

(** Truthiness of a value typed [string | undefined]. *)
Definition supplied (o : option string) : bool :=
  match o with
  | Some s => nonempty s
  | None => false
  end.

(** [Number.prototype.toString] on the modelled integers: the plain decimal
    numeral, which is what JavaScript prints for the safe integers (below
    2^53 in magnitude) and so for every HTTP status. *)
Definition Number_toString (n : Z) : string :=
  NilZero.string_of_int (Z.to_int n).

Fixpoint own_property (fields : list (string * JsVal)) (key : string) : JsVal :=
  match fields with
  | [] => JUndefined
  | (k, v) :: rest => if (k =? key)%string then v else own_property rest key
  end.

Fixpoint has_own (fields : list (string * JsVal)) (key : string) : bool :=
  match fields with
  | [] => false
  | (k, _) :: rest => (k =? key)%string || has_own rest key
  end.

(** [obj.key = v]: replaces the value in place, or appends a new property. *)
Fixpoint set_property (fields : list (string * JsVal)) (key : string) (v : JsVal)
  : list (string * JsVal) :=
  match fields with
  | [] => [(key, v)]
  | (k, w) :: rest =>
      if (k =? key)%string then (k, v) :: rest
      else (k, w) :: set_property rest key v
  end.

(** [v.key] for the property names this program reads ([code], [message],
    [data], [uuid], [created_at], [updated_at], [status], [tryon_img_url],
    [cloth_id], [title], [description], [cloth_img_url]): none of them is
    defined by a built-in prototype, so a primitive or an array answers
    undefined, and reading from undefined or null throws. *)
Definition Get (v : JsVal) (key : string) : Completion JsVal :=
  match v with
  | JUndefined =>
      Throw (TypeError ("Cannot read properties of undefined (reading '" ++ key ++ "')"))
  | JNull =>
      Throw (TypeError ("Cannot read properties of null (reading '" ++ key ++ "')"))
  | JObj fields => Normal (own_property fields key)
  | JBool _ | JNum _ | JStr _ | JArr _ => Normal JUndefined
  end.

(** [ToString], as used by [String(v)], template literals and string
    concatenation.  A parsed-JSON object has no callable own property, so an
    own [toString] key hides [Object.prototype.toString] and the conversion
    throws; an array joins its elements with commas, printing undefined and
    null elements as empty. *)
Fixpoint ToString (v : JsVal) : Completion string :=
  match v with
  | JUndefined => Normal "undefined"
  | JNull => Normal "null"
  | JBool true => Normal "true"
  | JBool false => Normal "false"
  | JNum n => Normal (Number_toString n)
  | JStr s => Normal s
  | JArr items =>
      (fix join (l : list JsVal) : Completion string :=
         match l with
         | [] => Normal ""
         | x :: rest =>
             let first :=
               match x with
               | JUndefined | JNull => Normal ""
               | _ => ToString x
               end in
             match first with
             | Throw e => Throw e
             | Normal s =>
                 match rest with
                 | [] => Normal s
                 | _ :: _ =>
                     match join rest with
                     | Throw e => Throw e
                     | Normal t => Normal (s ++ "," ++ t)
                     end
                 end
             end
         end) items
  | JObj fields =>
      if has_own fields "toString"
      then Throw (TypeError "Cannot convert object to primitive value")
      else Normal "[object Object]"
  end.

(** [v !== 0] *)
Definition strict_neq_zero (v : JsVal) : bool :=
  match v with
  | JNum n => negb (n =? 0)
  | _ => true
  end.

(** [new Error(v)]: an undefined argument leaves the message empty,
    anything else is converted with [ToString]. *)
Definition new_Error (v : JsVal) : Completion JsError :=
  match v with
  | JUndefined => Normal (Error "")
  | _ =>
      match ToString v with
      | Normal s => Normal (Error s)
      | Throw e => Throw e
      end
  end.

(** [s.replace(/^\//, "")]: drops one leading slash. *)
Definition replace_leading_slash (s : string) : string :=
  match s with
  | String "/"%char rest => rest
  | _ => s
  end.

End Js.
Export Js.

(** ** The host platform and the effect monad *)
Module Host.

Record HttpRequest : Type := {
  url : string;
  method : string;
  headers : list (string * string);
  (** the value handed to [JSON.stringify] to make the request body *)
  body : JsVal
}.

Record HttpResponse : Type := {
  status : Z;
  (** what [resp.json()] settles to: the parsed body, or the parse error *)
  json : Completion JsVal
}.

(** [resp.ok]: the status is in the range 200 to 299. *)
Definition ok (resp : HttpResponse) : bool :=
  (200 <=? status resp) && (status resp <=? 299).

Inductive FetchOutcome : Type :=
| Rejected (e : JsError)
| Responded (resp : HttpResponse).

(** What the JavaScript host supplies and the repository does not define:
    the network behind [fetch], [new URL(s).pathname], and the numeric
    reading of a string that [==] uses when it compares a number with a
    string ([None] when the string reads as no modelled integer). *)
Record Platform : Type := {
  fetch : HttpRequest -> FetchOutcome;
  URL_pathname : string -> Completion string;
  StringToNumber : string -> option Z
}.

Inductive Event : Type :=
| EvLog (v : JsVal)
| EvFetch (req : HttpRequest)
| EvJson (resp : HttpResponse).

Definition Trace : Type := list Event.

Definition M (A : Type) : Type := Platform -> Completion A * Trace.

Definition ret {A} (a : A) : M A := fun _ => (Normal a, []).

Definition throw {A} (e : JsError) : M A := fun _ => (Throw e, []).

Definition bind {A B} (m : M A) (k : A -> M B) : M B :=
  fun p =>
    match m p with
    | (Normal a, t1) => let (r, t2) := k a p in (r, (t1 ++ t2)%list)
    | (Throw e, t1) => (Throw e, t1)
    end.

(** [try { m } catch (e) { h e }] *)
Definition try_catch {A} (m : M A) (h : JsError -> M A) : M A :=
  fun p =>
    match m p with
    | (Normal a, t1) => (Normal a, t1)
    | (Throw e, t1) => let (r, t2) := h e p in (r, (t1 ++ t2)%list)
    end.

Definition lift {A} (c : Completion A) : M A := fun _ => (c, []).

Definition do_fetch (req : HttpRequest) : M HttpResponse :=
  fun p =>
    match fetch p req with
    | Rejected e => (Throw e, [EvFetch req])
    | Responded resp => (Normal resp, [EvFetch req])
    end.

Definition resp_json (resp : HttpResponse) : M JsVal :=
  fun _ => (json resp, [EvJson resp]).

Definition console_log (v : JsVal) : M unit :=
  fun _ => (Normal tt, [EvLog v]).

Definition new_URL_pathname (s : string) : M string :=
  fun p => (URL_pathname p s, []).

Definition string_to_number (s : string) : M (option Z) :=
  fun p => (Normal (StringToNumber p s), []).

Definition is_fetch (ev : Event) : bool :=
  match ev with
  | EvFetch _ => true
  | _ => false
  end.

Definition is_json (ev : Event) : bool :=
  match ev with
  | EvJson _ => true
  | _ => false
  end.

(** The HTTP requests a trace contains, in order. *)
Definition fetches (t : Trace) : list HttpRequest :=
  flat_map (fun ev => match ev with EvFetch r => [r] | _ => [] end) t.

(** Whether a trace contains an attempt to parse a response body. *)
Definition parsed_body (t : Trace) : bool := existsb is_json t.

End Host.
Export Host.

Declare Scope js_scope.
Delimit Scope js_scope with js.
Notation "x <- m ;; k" := (bind m (fun x => k))
  (at level 61, m at next level, right associativity) : js_scope.
Notation "m ;;; k" := (bind m (fun _ => k))
  (at level 61, right associativity) : js_scope.
Open Scope js_scope.

(** ** src/heybeauty.ts *)
Module Client.

Record HeyBeautyClient : Type := {
  apiBaseUrl : string;
  apiKey : string
}.

(** [constructor({ apiKey, apiBaseUrl })] *)
Definition new_HeyBeautyClient (apiKey : string) (apiBaseUrl : option string)
  : HeyBeautyClient :=
  {| apiBaseUrl :=
       match apiBaseUrl with
       | Some u => if nonempty u then u else "https://heybeauty.ai/api"
       | None => "https://heybeauty.ai/api"
       end;
     apiKey := apiKey |}.

(** [const { code, message, data } = await resp.json();
     if (code !== 0) throw new Error(message);] and the body as far as
    [data]: the part the three methods share. *)
Definition unwrap (resp : HttpResponse) : M JsVal :=
  envelope <- resp_json resp ;;
  code <- lift (Get envelope "code") ;;
  message <- lift (Get envelope "message") ;;
  data <- lift (Get envelope "data") ;;
  if strict_neq_zero code
  then (e <- lift (new_Error message) ;; throw e)
  else ret data.

Definition getClothes_request (c : HeyBeautyClient) : HttpRequest :=
  {| url := apiBaseUrl c ++ "/get-clothes";
     method := "POST";
     headers := [("Authorization", "Bearer " ++ apiKey c)];
     body := JObj [("page", JNum 1); ("limit", JNum 10)] |}.

Definition getClothes (c : HeyBeautyClient) : M JsVal :=
  try_catch
    (resp <- do_fetch (getClothes_request c) ;;
     if negb (ok resp)
     then throw (Error ("request failed with status " ++ Number_toString (status resp)))
     else
       data <- unwrap resp ;;
       ret data)
    (fun error => throw error).

Record SubmitTaskArgs : Type := {
  user_img_url : string;
  cloth_img_url : string;
  cloth_id : option string;
  cloth_description : option string
}.

(** The projection both task methods return. *)
Record TryOnTask : Type := {
  task_id : JsVal;
  created_at : JsVal;
  updated_at : JsVal;
  task_status : JsVal;
  tryon_img_url : JsVal
}.

(** The object [req] of [submitTask], built by the literal and the two
    conditional assignments. *)
Definition submitTask_body (a : SubmitTaskArgs) : JsVal :=
  let req :=
    [("user_img_url", JStr (user_img_url a));
     ("cloth_img_url", JStr (cloth_img_url a));
     ("category", JStr "1");
     ("is_sync", JStr "0")] in
  let req :=
    match cloth_id a with
    | Some id => if nonempty id then set_property req "cloth_id" (JStr id) else req
    | None => req
    end in
  let req :=
    match cloth_description a with
    | Some d => if nonempty d then set_property req "caption" (JStr d) else req
    | None => req
    end in
  JObj req.

Definition submitTask_request (c : HeyBeautyClient) (a : SubmitTaskArgs) : HttpRequest :=
  {| url := apiBaseUrl c ++ "/mcp-vton";
     method := "POST";
     headers := [("Authorization", "Bearer " ++ apiKey c)];
     body := submitTask_body a |}.

Definition submitTask (c : HeyBeautyClient) (a : SubmitTaskArgs) : M TryOnTask :=
  try_catch
    (if negb (nonempty (user_img_url a)) || negb (nonempty (cloth_img_url a))
     then throw (Error "user_img_url and cloth_img_url are required")
     else
       console_log (submitTask_body a) ;;;
       resp <- do_fetch (submitTask_request c a) ;;
       if negb (ok resp)
       then throw (Error ("request failed with status " ++ Number_toString (status resp)))
       else
         data <- unwrap resp ;;
         uuid <- lift (Get data "uuid") ;;
         created <- lift (Get data "created_at") ;;
         updated <- lift (Get data "updated_at") ;;
         st <- lift (Get data "status") ;;
         img <- lift (Get data "tryon_img_url") ;;
         ret {| task_id := uuid;
                created_at := created;
                updated_at := updated;
                task_status := st;
                tryon_img_url := or_else img (JStr "") |})
    (fun error => throw error).

Definition queryTask_request (c : HeyBeautyClient) (task_id : string) : HttpRequest :=
  {| url := apiBaseUrl c ++ "/get-task-info";
     method := "POST";
     headers := [("Content-Type", "application/json");
                 ("Authorization", "Bearer " ++ apiKey c)];
     body := JObj [("task_uuid", JStr task_id)] |}.

Definition queryTask (c : HeyBeautyClient) (task_id : string) : M TryOnTask :=
  try_catch
    (resp <- do_fetch (queryTask_request c task_id) ;;
     if negb (ok resp)
     then throw (Error ("request failed with status: " ++ Number_toString (status resp)))
     else
       data <- unwrap resp ;;
       created <- lift (Get data "created_at") ;;
       updated <- lift (Get data "updated_at") ;;
       st <- lift (Get data "status") ;;
       img <- lift (Get data "tryon_img_url") ;;
       ret {| task_id := JStr task_id;
              created_at := created;
              updated_at := updated;
              task_status := st;
              tryon_img_url := or_else img (JStr "") |})
    (fun error => throw error).

End Client.
Export Client.

(** ** The server entry point: the six request handlers *)
Module Handlers.

(** Process-wide configuration: what [getParamValue("HEYBEAUTY_API_KEY")]
    finds on the command line or in the environment. *)
Record Config : Type := {
  param_HEYBEAUTY_API_KEY : option string
}.

(** [const heybeautyApiKey = getParamValue("HEYBEAUTY_API_KEY") || ""] *)
Definition heybeautyApiKey (cfg : Config) : string :=
  match param_HEYBEAUTY_API_KEY cfg with
  | Some k => if nonempty k then k else ""
  | None => ""
  end.

Inductive RequestParams : Type :=
| ListResources
| ReadResource (uri : string)
| ListTools
| CallTool (name : string) (arguments : option (list (string * JsVal)))
| ListPrompts
| GetPrompt (name : string).

(** An inbound MCP request: its parameters and what
    [getAuthValue(request, "HEYBEAUTY_API_KEY")] finds in its auth context. *)
Record Request : Type := {
  auth_HEYBEAUTY_API_KEY : option string;
  params : RequestParams
}.

(** [getAuthValue(request, "HEYBEAUTY_API_KEY") || heybeautyApiKey] *)
Definition resolve_apiKey (cfg : Config) (request : Request) : string :=
  match auth_HEYBEAUTY_API_KEY request with
  | Some k => if nonempty k then k else heybeautyApiKey cfg
  | None => heybeautyApiKey cfg
  end.

Record Resource : Type := {
  uri : string;
  mimeType : string;
  name : JsVal;
  description : string
}.

Record ResourceContents : Type := {
  contents_uri : string;
  contents_mimeType : string;
  text : JsVal
}.

(** The text [JSON.stringify(res)] of a tool result, kept as the value that
    is serialised. *)
Inductive JsonText : Type :=
| JSON_stringify (res : TryOnTask).

Record ToolContent : Type := {
  content_type : string;
  content_text : JsonText
}.

Record PropertySchema : Type := {
  property_name : string;
  property_type : string;
  property_description : string
}.

Record Tool : Type := {
  tool_name : string;
  tool_description : string;
  schema_type : string;
  properties : list PropertySchema;
  required : list string
}.

Record Prompt : Type := {
  prompt_name : string;
  prompt_description : string
}.

Record PromptMessage : Type := {
  role : string;
  message_type : string;
  message_text : string
}.

Inductive Response : Type :=
| ResourcesResult (resources : list Resource)
| ContentsResult (contents : list ResourceContents)
| ToolsResult (tools : list Tool)
| ToolCallResult (content : list ToolContent)
| PromptsResult (prompts : list Prompt)
| MessagesResult (messages : list PromptMessage).

(** [clothes.map(f)] on an untyped value. *)
Fixpoint map_items {B} (f : JsVal -> M B) (l : list JsVal) : M (list B) :=
  match l with
  | [] => ret []
  | x :: rest =>
      y <- f x ;;
      ys <- map_items f rest ;;
      ret (y :: ys)
  end.

Definition Array_map {B} (v : JsVal) (f : JsVal -> M B) : M (list B) :=
  match v with
  | JArr items => map_items f items
  | JUndefined => throw (TypeError "Cannot read properties of undefined (reading 'map')")
  | JNull => throw (TypeError "Cannot read properties of null (reading 'map')")
  | _ => throw (TypeError "clothes.map is not a function")
  end.

(** [clothes.find(pred)]: the first element the predicate accepts, or
    undefined. *)
Fixpoint find_item (pred : JsVal -> M bool) (l : list JsVal) : M JsVal :=
  match l with
  | [] => ret JUndefined
  | x :: rest =>
      b <- pred x ;;
      if b then ret x else find_item pred rest
  end.

Definition Array_find (v : JsVal) (pred : JsVal -> M bool) : M JsVal :=
  match v with
  | JArr items => find_item pred items
  | JUndefined => throw (TypeError "Cannot read properties of undefined (reading 'find')")
  | JNull => throw (TypeError "Cannot read properties of null (reading 'find')")
  | _ => throw (TypeError "clothes.find is not a function")
  end.

(** [v == s] with [s] a string: strings compare as strings, undefined and
    null equal no string, numbers and booleans compare with the numeric
    reading of [s], arrays and objects compare by their primitive (string)
    form. *)
Definition loose_eq_string (v : JsVal) (s : string) : M bool :=
  match v with
  | JUndefined | JNull => ret false
  | JStr t => ret (t =? s)%string
  | JNum n =>
      r <- string_to_number s ;;
      ret match r with Some m => n =? m | None => false end
  | JBool b =>
      r <- string_to_number s ;;
      ret match r with Some m => (if b then 1 else 0) =? m | None => false end
  | JArr _ | JObj _ =>
      t <- lift (ToString v) ;;
      ret (t =? s)%string
  end.

(** The callback of [clothes.map] in the list-resources handler. *)
Definition resource_of_clothe (clothe : JsVal) : M Resource :=
  cloth_id <- lift (Get clothe "cloth_id") ;;
  id <- lift (ToString cloth_id) ;;
  title <- lift (Get clothe "title") ;;
  description <- lift (Get clothe "description") ;;
  d <- lift (ToString description) ;;
  ret {| uri := "cloth:///" ++ id;
         mimeType := "text/plain";
         name := title;
         description := d |}.

(** The callback of [clothes.find] in the read-resource handler:
    [clothe.cloth_id == id]. *)
Definition clothe_has_id (id : string) (clothe : JsVal) : M bool :=
  cloth_id <- lift (Get clothe "cloth_id") ;;
  loose_eq_string cloth_id id.

(** Handler for [ListResourcesRequestSchema]. *)
Definition ListResourcesHandler (cfg : Config) (request : Request) : M Response :=
  try_catch
    (let apiKey := resolve_apiKey cfg request in
     if negb (nonempty apiKey)
     then throw (Error "HEYBEAUTY_API_KEY is not set")
     else
       let client := new_HeyBeautyClient apiKey None in
       clothes <- getClothes client ;;
       resources <- Array_map clothes resource_of_clothe ;;
       ret (ResourcesResult resources))
    (fun error => throw (Error ("get resources failed: " ++ message error))).

(** Handler for [ReadResourceRequestSchema]. *)
Definition ReadResourceHandler (cfg : Config) (request : Request) (uri : string)
  : M Response :=
  try_catch
    (let apiKey := resolve_apiKey cfg request in
     if negb (nonempty apiKey)
     then throw (Error "HEYBEAUTY_API_KEY is not set")
     else
       pathname <- new_URL_pathname uri ;;
       let id := replace_leading_slash pathname in
       let client := new_HeyBeautyClient apiKey None in
       clothes <- getClothes client ;;
       cloth <- Array_find clothes (clothe_has_id id) ;;
       if negb (ToBoolean cloth)
       then throw (Error ("Cloth " ++ id ++ " not found"))
       else
         img <- lift (Get cloth "cloth_img_url") ;;
         ret (ContentsResult
                [{| contents_uri := uri;
                    contents_mimeType := "text/plain";
                    text := img |}]))
    (fun error => throw (Error ("read resource failed: " ++ message error))).

Definition static_tools : list Tool :=
  [{| tool_name := "submit_tryon_task";
      tool_description := "Submit a tryon task with user image url and cloth image url";
      schema_type := "object";
      properties :=
        [{| property_name := "user_img_url";
            property_type := "string";
            property_description := "User image url, should be a url of a picture" |};
         {| property_name := "cloth_img_url";
            property_type := "string";
            property_description :=
              "Cloth image url, should be a url of a picture, user input or get from the selected cloth resource" |};
         {| property_name := "cloth_id";
            property_type := "string";
            property_description := "Cloth id, get from the selected cloth resource" |};
         {| property_name := "cloth_description";
            property_type := "string";
            property_description :=
              "Cloth description, user input or get from the selected cloth resource" |}];
      required := ["user_img_url"; "cloth_img_url"] |};
   {| tool_name := "query_tryon_task";
      tool_description := "Query a tryon task with task id";
      schema_type := "object";
      properties :=
        [{| property_name := "task_id";
            property_type := "string";
            property_description := "Task id, get from the submit_tryon_task tool" |}];
      required := ["task_id"] |}].

(** Handler for [ListToolsRequestSchema]: takes no request. *)
Definition ListToolsHandler : M Response :=
  ret (ToolsResult static_tools).

(** [request.params.arguments?.key] *)
Definition argument (arguments : option (list (string * JsVal))) (key : string) : JsVal :=
  match arguments with
  | Some fields => own_property fields key
  | None => JUndefined
  end.

(** Handler for [CallToolRequestSchema]. *)
Definition CallToolHandler (cfg : Config) (request : Request) (name : string)
    (arguments : option (list (string * JsVal))) : M Response :=
  try_catch
    (let apiKey := resolve_apiKey cfg request in
     if negb (nonempty apiKey)
     then throw (Error "HEYBEAUTY_API_KEY is not set")
     else
       let client := new_HeyBeautyClient apiKey None in
       if (name =? "submit_tryon_task")%string then
         user_img_url <- lift (ToString (or_else (argument arguments "user_img_url") (JStr ""))) ;;
         cloth_img_url <- lift (ToString (or_else (argument arguments "cloth_img_url") (JStr ""))) ;;
         cloth_id <- lift (ToString (or_else (argument arguments "cloth_id") (JStr ""))) ;;
         cloth_description <-
           lift (ToString (or_else (argument arguments "cloth_description") (JStr ""))) ;;
         if negb (nonempty user_img_url) then throw (Error "user image is required")
         else if negb (nonempty cloth_img_url) then throw (Error "cloth image is required")
         else
           res <- submitTask client
                    {| user_img_url := user_img_url;
                       cloth_img_url := cloth_img_url;
                       cloth_id := Some cloth_id;
                       cloth_description := Some cloth_description |} ;;
           ret (ToolCallResult
                  [{| content_type := "text"; content_text := JSON_stringify res |}])
       else if (name =? "query_tryon_task")%string then
         task_id <- lift (ToString (argument arguments "task_id")) ;;
         if negb (nonempty task_id) then throw (Error "task id is required")
         else
           res <- queryTask client task_id ;;
           ret (ToolCallResult
                  [{| content_type := "text"; content_text := JSON_stringify res |}])
       else throw (Error "Unknown tool"))
    (fun error => throw (Error ("call tool failed: " ++ message error))).

(** Handler for [ListPromptsRequestSchema]: takes no request. *)
Definition ListPromptsHandler : M Response :=
  ret (PromptsResult
         [{| prompt_name := "tryon_cloth";
             prompt_description := "Tryon with user image and cloth image" |}]).

Definition dq : string := String "034"%char "".

Definition tryon_cloth_text : string :=
  "You are a helpful assistant that helps users try on clothes virtually. When a user provides their photo URL and either:
1. A clothing image URL they want to try on, or
2. Selects a clothing item from the available resources

Here's how to handle each case:

1. If the user provides their own clothing image URL:
   - Use the submit_tryon_task tool with:
     - user_img_url: The URL of the user's photo
     - cloth_img_url: The URL of the clothing image provided by the user
   - cloth_id and cloth_description can be left empty

2. If the user selects a clothing item from resources:
   - Use the submit_tryon_task tool with:
     - user_img_url: The URL of the user's photo
     - cloth_img_url: The URL from the selected cloth resource
     - cloth_id: The ID from the selected cloth resource
     - cloth_description: The description from the selected cloth resource

After submitting the task:
- Get the task_id from the response
- Use the query_tryon_task tool every 5 seconds to check the task status
- Continue checking until the task status is either " ++ dq ++ "succeeded" ++ dq ++ " or " ++ dq ++ "failed" ++ dq ++ "
- If successful, display the tryon_img_url in markdown format: ![Try-on Result](tryon_img_url)
- If failed, inform the user about the failure

Throughout the process:
- Keep the user informed about the current status
- Be patient and friendly
- Handle any errors gracefully

Here is the user's photo URL and either their clothing image URL or the selected clothing item:".

(** Handler for [GetPromptRequestSchema]: no try/catch around its body. *)
Definition GetPromptHandler (name : string) : M Response :=
  if negb (name =? "tryon_cloth")%string
  then throw (Error "Unknown prompt")
  else
    ret (MessagesResult
           [{| role := "user"; message_type := "text"; message_text := tryon_cloth_text |}]).

(** The routing done by [server.setRequestHandler]: each request schema
    has its own handler. *)
Definition handle (cfg : Config) (request : Request) : M Response :=
  match params request with
  | ListResources => ListResourcesHandler cfg request
  | ReadResource uri => ReadResourceHandler cfg request uri
  | ListTools => ListToolsHandler
  | CallTool name arguments => CallToolHandler cfg request name arguments
  | ListPrompts => ListPromptsHandler
  | GetPrompt name => GetPromptHandler name
  end.

(** The operation prefix a handler puts in front of a caught error's
    message, for the handlers that have a catch clause. *)
Definition failure_prefix (p : RequestParams) : option string :=
  match p with
  | ListResources => Some "get resources failed: "
  | ReadResource _ => Some "read resource failed: "
  | CallTool _ _ => Some "call tool failed: "
  | ListTools | ListPrompts | GetPrompt _ => None
  end.

End Handlers.
Export Handlers.

(** ** Vocabulary of the specification *)
Module Spec.

(** The remote answers with an envelope [{ code, message, data }] whose
    code is an integer and whose message is a string. *)
Definition envelope_of (fields : list (string * JsVal))
    (code : Z) (msg : string) (data : JsVal) : Prop :=
  own_property fields "code" = JNum code /\
  own_property fields "message" = JStr msg /\
  own_property fields "data" = data.

(** A 2xx response whose body parses to the object [fields]. *)
Definition successful (resp : HttpResponse) (fields : list (string * JsVal)) : Prop :=
  ok resp = true /\ json resp = Normal (JObj fields).

Definition nullish (v : JsVal) : bool :=
  match v with
  | JUndefined | JNull => true
  | _ => false
  end.

(** A field of the remote task record. *)
Definition field (data : JsVal) (key : string) : JsVal :=
  match data with
  | JObj fields => own_property fields key
  | _ => JUndefined
  end.

(** The projection of the remote task record that the specification
    describes, with the given task id. *)
Definition projection (id : JsVal) (data : JsVal) : TryOnTask :=
  {| task_id := id;
     created_at := field data "created_at";
     updated_at := field data "updated_at";
     task_status := field data "status";
     tryon_img_url :=
       if ToBoolean (field data "tryon_img_url")
       then field data "tryon_img_url"
       else JStr "" |}.

(** Reading the task record after [unwrap]: the first property read throws
    on an undefined or null record, otherwise the projection is returned. *)
Definition project_task (id : JsVal -> JsVal) (first_key : string) (data : JsVal)
  : Completion TryOnTask :=
  match Get data first_key with
  | Throw e => Throw e
  | Normal _ => Normal (projection (id data) data)
  end.

(** A request-body field that is present only for a non-empty argument. *)
Definition optional_field (key : string) (arg : option string) : list (string * JsVal) :=
  match arg with
  | Some s => if (s =? "")%string then [] else [(key, JStr s)]
  | None => []
  end.

(** A string-valued field of a clothing record. *)
Definition cloth_field (clothe : JsVal) (key : string) : option string :=
  match clothe with
  | JObj fields =>
      match own_property fields key with
      | JStr s => Some s
      | _ => None
      end
  | _ => None
  end.

(** A clothing record as the data model has it: an object with string
    fields [cloth_id], [title], [description] and [cloth_img_url]. *)
Definition valid_cloth (clothe : JsVal) : Prop :=
  exists id title description img,
    cloth_field clothe "cloth_id" = Some id /\
    cloth_field clothe "title" = Some title /\
    cloth_field clothe "description" = Some description /\
    cloth_field clothe "cloth_img_url" = Some img.

(** A message of the form [<operation> failed: <cause>]. *)
Definition operation_prefixed (msg : string) : Prop :=
  exists operation cause, msg = operation ++ " failed: " ++ cause.

(** Whether [sub] occurs in [s]. *)
Fixpoint occurs (sub s : string) : bool :=
  String.prefix sub s ||
  match s with
  | EmptyString => false
  | String _ rest => occurs sub rest
  end.

(** A computation that performs no effect on any platform. *)
Definition silent {A} (m : M A) : Prop := forall p, snd (m p) = [].

(** The request carries the bearer token [key]. *)
Definition authorized (key : string) (req : HttpRequest) : Prop :=
  In ("Authorization", "Bearer " ++ key) (headers req).

End Spec.
Export Spec.

(** ** A concrete platform, for running the handlers on examples *)
Module Scenario.

Fixpoint cut_at (c : ascii) (s : string) : string :=
  match s with
  | EmptyString => ""
  | String a rest => if Ascii.eqb a c then "" else String a (cut_at c rest)
  end.

Fixpoint after (c : ascii) (s : string) : option string :=
  match s with
  | EmptyString => None
  | String a rest => if Ascii.eqb a c then Some rest else after c rest
  end.

Definition is_alpha (a : ascii) : bool :=
  let n := nat_of_ascii a in
  ((65 <=? n) && (n <=? 90) || (97 <=? n) && (n <=? 122))%nat.

Definition is_digit (a : ascii) : bool :=
  let n := nat_of_ascii a in ((48 <=? n) && (n <=? 57))%nat.

Fixpoint all_chars (f : ascii -> bool) (s : string) : bool :=
  match s with
  | EmptyString => true
  | String a rest => f a && all_chars f rest
  end.

Definition valid_scheme (s : string) : bool :=
  match s with
  | EmptyString => false
  | String a rest =>
      is_alpha a &&
      all_chars (fun c => is_alpha c || is_digit c
                          || Ascii.eqb c "+" || Ascii.eqb c "-" || Ascii.eqb c ".") rest
  end.

(** Drops the authority: everything before the first slash. *)
Fixpoint from_slash (s : string) : string :=
  match s with
  | EmptyString => ""
  | String a rest => if Ascii.eqb a "/" then s else from_slash rest
  end.

(** [new URL(s).pathname] for the URLs of the examples: a scheme, an
    optional authority after a double slash, a path of letters, digits,
    hyphens and slashes, and an optional query or fragment.  The fragment
    (from the first number sign) and the query (from the first question
    mark) are cut off and the authority is dropped; a string without a
    scheme is no URL. *)
Definition simple_URL_pathname (s : string) : Completion string :=
  match after ":" s with
  | None => Throw (TypeError "Invalid URL")
  | Some rest =>
      if valid_scheme (cut_at ":" s)
      then
        let hier := cut_at "?" (cut_at "#" rest) in
        Normal match hier with
               | String "/" (String "/" r) => from_slash r
               | _ => hier
               end
      else Throw (TypeError "Invalid URL")
  end.

Fixpoint digits_value (s : string) (acc : Z) : option Z :=
  match s with
  | EmptyString => Some acc
  | String a rest =>
      if is_digit a
      then digits_value rest (10 * acc + (Z.of_nat (nat_of_ascii a) - 48))
      else None
  end.

(** Plain decimal numerals; the empty string reads as 0. *)
Definition decimal_StringToNumber (s : string) : option Z := digits_value s 0.

Definition envelope (code : Z) (msg : string) (data : JsVal) : JsVal :=
  JObj [("code", JNum code); ("message", JStr msg); ("data", data)].

(** A remote that answers every request with the same status and body. *)
Definition remote (status : Z) (body : JsVal) : Platform :=
  {| fetch := fun _ => Responded {| status := status; json := Normal body |};
     URL_pathname := simple_URL_pathname;
     StringToNumber := decimal_StringToNumber |}.

Definition cloth (id title description img : string) : JsVal :=
  JObj [("cloth_id", JStr id); ("title", JStr title);
        ("description", JStr description); ("cloth_img_url", JStr img)].

Definition client : HeyBeautyClient := new_HeyBeautyClient "sk-test" None.

Definition with_key : Config := {| param_HEYBEAUTY_API_KEY := Some "sk-test" |}.

Definition no_key : Config := {| param_HEYBEAUTY_API_KEY := None |}.

Definition request (p : RequestParams) : Request :=
  {| auth_HEYBEAUTY_API_KEY := None; params := p |}.

Definition task_record : JsVal :=
  JObj [("uuid", JStr "abc123"); ("created_at", JStr "2025-01-01 00:00:00");
        ("updated_at", JStr "2025-01-01 00:00:00"); ("status", JStr "pending")].

Definition scenario_args : SubmitTaskArgs :=
  {| user_img_url := "https://x/u.jpg";
     cloth_img_url := "https://x/c.jpg";
     cloth_id := None;
     cloth_description := None |}.

End Scenario.

(** ** The try blocks of the three handlers that have a catch clause *)
Module TryBlocks.

(** The statements between [try {] and [} catch] of the list-resources
    handler. *)
Definition ListResourcesTry (cfg : Config) (request : Request) : M Response :=
  let apiKey := resolve_apiKey cfg request in
  if negb (nonempty apiKey)
  then throw (Error "HEYBEAUTY_API_KEY is not set")
  else
    let client := new_HeyBeautyClient apiKey None in
    clothes <- getClothes client ;;
    resources <- Array_map clothes resource_of_clothe ;;
    ret (ResourcesResult resources).

(** The try block of the read-resource handler. *)
Definition ReadResourceTry (cfg : Config) (request : Request) (uri : string)
  : M Response :=
  let apiKey := resolve_apiKey cfg request in
  if negb (nonempty apiKey)
  then throw (Error "HEYBEAUTY_API_KEY is not set")
  else
    pathname <- new_URL_pathname uri ;;
    let id := replace_leading_slash pathname in
    let client := new_HeyBeautyClient apiKey None in
    clothes <- getClothes client ;;
    cloth <- Array_find clothes (clothe_has_id id) ;;
    if negb (ToBoolean cloth)
    then throw (Error ("Cloth " ++ id ++ " not found"))
    else
      img <- lift (Get cloth "cloth_img_url") ;;
      ret (ContentsResult
             [{| contents_uri := uri;
                 contents_mimeType := "text/plain";
                 text := img |}]).

(** The try block of the call-tool handler. *)
Definition CallToolTry (cfg : Config) (request : Request) (name : string)
    (arguments : option (list (string * JsVal))) : M Response :=
  let apiKey := resolve_apiKey cfg request in
  if negb (nonempty apiKey)
  then throw (Error "HEYBEAUTY_API_KEY is not set")
  else
    let client := new_HeyBeautyClient apiKey None in
    if (name =? "submit_tryon_task")%string then
      user_img_url <- lift (ToString (or_else (argument arguments "user_img_url") (JStr ""))) ;;
      cloth_img_url <- lift (ToString (or_else (argument arguments "cloth_img_url") (JStr ""))) ;;
      cloth_id <- lift (ToString (or_else (argument arguments "cloth_id") (JStr ""))) ;;
      cloth_description <-
        lift (ToString (or_else (argument arguments "cloth_description") (JStr ""))) ;;
      if negb (nonempty user_img_url) then throw (Error "user image is required")
      else if negb (nonempty cloth_img_url) then throw (Error "cloth image is required")
      else
        res <- submitTask client
                 {| user_img_url := user_img_url;
                    cloth_img_url := cloth_img_url;
                    cloth_id := Some cloth_id;
                    cloth_description := Some cloth_description |} ;;
        ret (ToolCallResult
               [{| content_type := "text"; content_text := JSON_stringify res |}])
    else if (name =? "query_tryon_task")%string then
      task_id <- lift (ToString (argument arguments "task_id")) ;;
      if negb (nonempty task_id) then throw (Error "task id is required")
      else
        res <- queryTask client task_id ;;
        ret (ToolCallResult
               [{| content_type := "text"; content_text := JSON_stringify res |}])
    else throw (Error "Unknown tool").

(** The try block of the handler a request is routed to, when that handler
    has one. *)
Definition try_block (cfg : Config) (request : Request) : option (M Response) :=
  match params request with
  | ListResources => Some (ListResourcesTry cfg request)
  | ReadResource uri => Some (ReadResourceTry cfg request uri)
  | CallTool name arguments => Some (CallToolTry cfg request name arguments)
  | ListTools | ListPrompts | GetPrompt _ => None
  end.

(** [catch (error) { throw new Error(prefix + error.message); }] *)
Definition rethrow_prefixed (prefix : string) (error : JsError) : M Response :=
  throw (Error (prefix ++ message error)).

End TryBlocks.
Export TryBlocks.

(** ** Process start-up: the transport chosen by [main] *)
Module Startup.

(** What [getParamValue] finds for the three start-up parameters. *)
Record Params : Type := {
  param_mode : option string;
  param_port : option string;
  param_endpoint : option string
}.

(** [getParamValue(name) || fallback] for a string fallback. *)
Definition param_or (v : option string) (fallback : string) : string :=
  match v with
  | Some s => if nonempty s then s else fallback
  | None => fallback
  end.

(** [const mode = getParamValue("mode") || "stdio"] *)
Definition mode (ps : Params) : string := param_or (param_mode ps) "stdio".

(** [const port = getParamValue("port") || 9593]: the parameter's text, or
    the number 9593. *)
Definition port (ps : Params) : JsVal :=
  match param_port ps with
  | Some s => if nonempty s then JStr s else JNum 9593
  | None => JNum 9593
  end.

(** [const endpoint = getParamValue("endpoint") || "/rest"] *)
Definition endpoint (ps : Params) : string := param_or (param_endpoint ps) "/rest".

Inductive Transport : Type :=
| RestServerTransport (port : JsVal) (endpoint : string)
| StdioServerTransport.

(** The two awaited calls of [main], supplied by the MCP libraries: each
    resolves ([None]) or rejects with an error. *)
Record Runtime : Type := {
  connect : Transport -> option JsError;
  startServer : Transport -> option JsError
}.

Inductive StartupEvent : Type :=
| EvConnect (t : Transport)
| EvStartServer (t : Transport)
| EvConsoleError (label : string) (e : JsError)
| EvExit (code : Z).

(** [async function main()] *)
Definition main (ps : Params) (rt : Runtime) : Completion unit * list StartupEvent :=
  if (mode ps =? "rest")%string then
    let transport := RestServerTransport (port ps) (endpoint ps) in
    match connect rt transport with
    | Some e => (Throw e, [EvConnect transport])
    | None =>
        match startServer rt transport with
        | Some e => (Throw e, [EvConnect transport; EvStartServer transport])
        | None => (Normal tt, [EvConnect transport; EvStartServer transport])
        end
    end
  else
    let transport := StdioServerTransport in
    match connect rt transport with
    | Some e => (Throw e, [EvConnect transport])
    | None => (Normal tt, [EvConnect transport])
    end.

(** [main().catch((error) => { console.error("Server error:", error);
    process.exit(1); })]: the events of the whole start-up. *)
Definition start (ps : Params) (rt : Runtime) : list StartupEvent :=
  match main ps rt with
  | (Normal _, t) => t
  | (Throw e, t) => (t ++ [EvConsoleError "Server error:" e; EvExit 1])%list
  end.

End Startup.

(** ** Further vocabulary for the properties *)
Module Observe.

(** The values a trace shows as written by [console.log]. *)
Definition logged (t : Trace) : list JsVal :=
  flat_map (fun ev => match ev with EvLog v => [v] | _ => [] end) t.

(** The three paths of the remote API. *)
Definition api_paths : list string := ["/get-clothes"; "/mcp-vton"; "/get-task-info"].

(** A POST to one of the API paths under [base], carrying [key] as bearer
    token. *)
Definition api_request (base key : string) (req : HttpRequest) : Prop :=
  method req = "POST" /\
  authorized key req /\
  exists path, In path api_paths /\ url req = base ++ path.

(** Every request the three methods of [c] issue on [p] is an API request
    under [base] with bearer [key]. *)
Definition sends_under (c : HeyBeautyClient) (p : Platform) (base key : string) : Prop :=
  Forall (api_request base key) (fetches (snd (getClothes c p))) /\
  (forall a, Forall (api_request base key) (fetches (snd (submitTask c a p)))) /\
  (forall id, Forall (api_request base key) (fetches (snd (queryTask c id p)))).

(** [String(request.params.arguments?.key || "")] *)
Definition coerced (arguments : option (list (string * JsVal))) (key : string)
  : Completion string :=
  ToString (or_else (argument arguments key) (JStr "")).

(** The numbers whose printing the model has exactly: the safe integers,
    which JavaScript prints in plain decimal.  Beyond them [Number_toString]
    does not tell what JavaScript prints. *)
Definition safe_integer (n : Z) : bool := Z.abs n <? 2 ^ 53.

(** A value whose text ([ToString]) involves only safe integers: numbers
    are looked for in the value itself and in the elements of arrays, which
    are the only places [ToString] prints them from. *)
Fixpoint printable (v : JsVal) : bool :=
  match v with
  | JNum n => safe_integer n
  | JArr items => forallb printable items
  | _ => true
  end.

(** The resource the list-resources handler makes of a clothing record.
    The texts of cloth_id and description are stated for printable values. *)
Definition lists_as (clothe : JsVal) (r : Resource) : Prop :=
  nullish clothe = false /\
  (printable (field clothe "cloth_id") = true ->
   exists id, ToString (field clothe "cloth_id") = Normal id /\
              uri r = "cloth:///" ++ id) /\
  mimeType r = "text/plain" /\
  name r = field clothe "title" /\
  (printable (field clothe "description") = true ->
   ToString (field clothe "description") = Normal (description r)).

(** The ways [queryTask] fails with error [e]. *)
Inductive query_failure (p : Platform) (c : HeyBeautyClient) (id : string) (e : JsError)
  : Prop :=
| transport_rejected :
    fetch p (queryTask_request c id) = Rejected e ->
    query_failure p c id e
| status_not_2xx (resp : HttpResponse) :
    fetch p (queryTask_request c id) = Responded resp ->
    status resp < 200 \/ 299 < status resp ->
    e = Error ("request failed with status: " ++ Number_toString (status resp)) ->
    query_failure p c id e
| body_unparseable (resp : HttpResponse) :
    fetch p (queryTask_request c id) = Responded resp ->
    ok resp = true ->
    json resp = Throw e ->
    query_failure p c id e
| envelope_missing (resp : HttpResponse) (envelope : JsVal) (m : string) :
    fetch p (queryTask_request c id) = Responded resp ->
    ok resp = true ->
    json resp = Normal envelope ->
    nullish envelope = true ->
    e = TypeError m ->
    query_failure p c id e
| code_not_zero (resp : HttpResponse) (envelope : JsVal) :
    fetch p (queryTask_request c id) = Responded resp ->
    ok resp = true ->
    json resp = Normal envelope ->
    nullish envelope = false ->
    field envelope "code" <> JNum 0 ->
    (forall text, field envelope "message" = JStr text -> e = Error text) ->
    (field envelope "message" = JUndefined -> e = Error "") ->
    query_failure p c id e
| data_missing (resp : HttpResponse) (envelope : JsVal) (m : string) :
    fetch p (queryTask_request c id) = Responded resp ->
    ok resp = true ->
    json resp = Normal envelope ->
    nullish envelope = false ->
    field envelope "code" = JNum 0 ->
    nullish (field envelope "data") = true ->
    e = TypeError m ->
    query_failure p c id e.

(** A platform whose network is down: every [fetch] rejects. *)
Definition offline (e : JsError) : Platform :=
  {| fetch := fun _ => Rejected e;
     URL_pathname := Scenario.simple_URL_pathname;
     StringToNumber := Scenario.decimal_StringToNumber |}.

(** A remote whose body does not parse: [resp.json()] rejects. *)
Definition garbled (status : Z) (e : JsError) : Platform :=
  {| fetch := fun _ => Responded {| status := status; json := Throw e |};
     URL_pathname := Scenario.simple_URL_pathname;
     StringToNumber := Scenario.decimal_StringToNumber |}.

End Observe.
Export Observe.

(** * Properties *)

(** Unfolds the monad and the client methods down to the platform calls. *)
Ltac run :=
  cbv beta iota delta
    [getClothes submitTask queryTask unwrap try_catch bind ret throw lift
     do_fetch resp_json console_log fst snd].

Create HintDb silent.

(** ** The monad and the coercions *)

Lemma try_catch_rethrow {A} (m : M A) (p : Platform) :
  try_catch m (fun e => throw e) p = m p.
Proof.
  unfold try_catch, throw.
  destruct (m p) as [[a | e] t]; [reflexivity | now rewrite app_nil_r].
Qed.

Lemma Get_field (data : JsVal) (key : string) :
  nullish data = false -> Get data key = Normal (field data key).
Proof. destruct data; simpl; intros H; try discriminate; reflexivity. Qed.

Lemma nonempty_true (s : string) : s <> "" -> nonempty s = true.
Proof.
  intros H. unfold nonempty.
  destruct (String.eqb_spec s ""); [contradiction | reflexivity].
Qed.

Lemma nonempty_false (s : string) : nonempty s = false -> s = "".
Proof.
  unfold nonempty. destruct (String.eqb_spec s ""); [trivial | discriminate].
Qed.

Lemma not_ok (resp : HttpResponse) :
  status resp < 200 \/ 299 < status resp -> ok resp = false.
Proof.
  intros H. unfold ok.
  destruct (Z.leb_spec 200 (status resp)), (Z.leb_spec (status resp) 299);
    simpl; try reflexivity; lia.
Qed.

(** ** The envelope: [unwrap] *)

Lemma unwrap_nonzero resp fields code msg data p :
  json resp = Normal (JObj fields) ->
  envelope_of fields code msg data ->
  code <> 0 ->
  unwrap resp p = (Throw (Error msg), [EvJson resp]).
Proof.
  intros Hjson (Hc & Hm & Hd) Hne. run. rewrite Hjson. simpl.
  rewrite Hc, Hm. simpl.
  destruct (Z.eqb_spec code 0); [contradiction | reflexivity].
Qed.

Lemma unwrap_zero resp fields msg data p :
  json resp = Normal (JObj fields) ->
  envelope_of fields 0 msg data ->
  unwrap resp p = (Normal data, [EvJson resp]).
Proof.
  intros Hjson (Hc & Hm & Hd). run. rewrite Hjson. simpl.
  rewrite Hc, Hd. reflexivity.
Qed.

Lemma unwrap_trace resp p : snd (unwrap resp p) = [EvJson resp].
Proof.
  run. destruct (json resp) as [v | e]; [| reflexivity].
  destruct v; simpl; try reflexivity.
  destruct (strict_neq_zero _); [destruct (new_Error _) |]; reflexivity.
Qed.

Lemma unwrap_unparseable_body resp e p :
  json resp = Throw e -> fst (unwrap resp p) = Throw e.
Proof. intros H. run. now rewrite H. Qed.

(** ** The three methods, reduced to the platform's answer *)

Lemma getClothes_run c p :
  getClothes c p =
  match fetch p (getClothes_request c) with
  | Rejected e => (Throw e, [EvFetch (getClothes_request c)])
  | Responded resp =>
      if ok resp
      then (fst (unwrap resp p), [EvFetch (getClothes_request c); EvJson resp])
      else (Throw (Error ("request failed with status " ++ Number_toString (status resp))),
            [EvFetch (getClothes_request c)])
  end.
Proof.
  unfold getClothes. rewrite try_catch_rethrow. unfold bind at 1, do_fetch.
  destruct (fetch p _) as [e | resp]; [reflexivity |].
  destruct (ok resp); simpl; [| reflexivity].
  unfold bind, ret. pose proof (unwrap_trace resp p) as Ht.
  destruct (unwrap resp p) as [[d | e] t]; simpl in *; subst t; reflexivity.
Qed.

Lemma submitTask_run c a p :
  submitTask c a p =
  if nonempty (user_img_url a) && nonempty (cloth_img_url a)
  then
    match fetch p (submitTask_request c a) with
    | Rejected e =>
        (Throw e, [EvLog (submitTask_body a); EvFetch (submitTask_request c a)])
    | Responded resp =>
        if ok resp
        then (match fst (unwrap resp p) with
              | Throw e => Throw e
              | Normal data => project_task (fun d => field d "uuid") "uuid" data
              end,
              [EvLog (submitTask_body a); EvFetch (submitTask_request c a); EvJson resp])
        else (Throw (Error ("request failed with status " ++ Number_toString (status resp))),
              [EvLog (submitTask_body a); EvFetch (submitTask_request c a)])
    end
  else (Throw (Error "user_img_url and cloth_img_url are required"), []).
Proof.
  unfold submitTask. rewrite try_catch_rethrow.
  destruct (nonempty (user_img_url a)), (nonempty (cloth_img_url a));
    simpl; try reflexivity.
  unfold bind at 1, console_log. unfold bind at 1, do_fetch.
  destruct (fetch p _) as [e | resp]; [reflexivity |].
  destruct (ok resp); simpl; [| reflexivity].
  unfold bind at 1. pose proof (unwrap_trace resp p) as Ht.
  destruct (unwrap resp p) as [[d | e] t]; simpl in *; subst t; [| reflexivity].
  unfold project_task, projection, or_else.
  destruct d; reflexivity.
Qed.

Lemma queryTask_run c id p :
  queryTask c id p =
  match fetch p (queryTask_request c id) with
  | Rejected e => (Throw e, [EvFetch (queryTask_request c id)])
  | Responded resp =>
      if ok resp
      then (match fst (unwrap resp p) with
            | Throw e => Throw e
            | Normal data => project_task (fun _ => JStr id) "created_at" data
            end,
            [EvFetch (queryTask_request c id); EvJson resp])
      else (Throw (Error ("request failed with status: " ++ Number_toString (status resp))),
            [EvFetch (queryTask_request c id)])
  end.
Proof.
  unfold queryTask. rewrite try_catch_rethrow. unfold bind at 1, do_fetch.
  destruct (fetch p _) as [e | resp]; [reflexivity |].
  destruct (ok resp); simpl; [| reflexivity].
  unfold bind at 1. pose proof (unwrap_trace resp p) as Ht.
  destruct (unwrap resp p) as [[d | e] t]; simpl in *; subst t; [| reflexivity].
  unfold project_task, projection, or_else.
  destruct d; reflexivity.
Qed.

Lemma project_task_defined id key data :
  nullish data = false ->
  project_task id key data = Normal (projection (id data) data).
Proof.
  intros H. unfold project_task. now rewrite (Get_field _ _ H).
Qed.

(** Every way [queryTask] can throw: the transport rejects, the status is
    not a success, unwrapping the body throws (unparseable body, an envelope
    that is undefined or null, a non-zero code), or the data is undefined or
    null. *)
Lemma queryTask_error_causes c id p e :
  fst (queryTask c id p) = Throw e ->
  fetch p (queryTask_request c id) = Rejected e \/
  exists resp,
    fetch p (queryTask_request c id) = Responded resp /\
    ((ok resp = false /\
      e = Error ("request failed with status: " ++ Number_toString (status resp))) \/
     (ok resp = true /\
      (fst (unwrap resp p) = Throw e \/
       exists data, fst (unwrap resp p) = Normal data /\ nullish data = true))).
Proof.
  rewrite queryTask_run.
  destruct (fetch p _) as [e' | resp]; simpl.
  - intros [= <-]. now left.
  - right. exists resp. split; [reflexivity |].
    destruct (ok resp); simpl in *.
    + right. split; [reflexivity |].
      destruct (fst (unwrap resp p)) as [data | e']; [| left; congruence].
      right. exists data. split; [reflexivity |].
      destruct data; try reflexivity; discriminate.
    + left. split; [reflexivity | congruence].
Qed.

(** ** Claims about the client *)

(** C1. For each of getClothes, submitTask and queryTask: when the HTTP
    response is successful and its body parses to an envelope with a
    non-zero code, the method throws an error whose text is the envelope's
    message, unchanged, whatever the non-zero code; when the code is 0 the
    method returns the envelope's data (getClothes) or the projection of the
    task record (submitTask, queryTask) without error. *)
Theorem envelope_code_decides_outcome :
  forall (p : Platform) (c : HeyBeautyClient) (resp : HttpResponse)
         (fields : list (string * JsVal)) (code : Z) (msg : string) (data : JsVal),
    successful resp fields ->
    envelope_of fields code msg data ->
    (fetch p (getClothes_request c) = Responded resp ->
     (code <> 0 -> fst (getClothes c p) = Throw (Error msg)) /\
     (code = 0 -> fst (getClothes c p) = Normal data)) /\
    (forall a : SubmitTaskArgs,
        user_img_url a <> "" -> cloth_img_url a <> "" ->
        fetch p (submitTask_request c a) = Responded resp ->
        (code <> 0 -> fst (submitTask c a p) = Throw (Error msg)) /\
        (code = 0 -> nullish data = false ->
         fst (submitTask c a p) = Normal (projection (field data "uuid") data))) /\
    (forall id : string,
        fetch p (queryTask_request c id) = Responded resp ->
        (code <> 0 -> fst (queryTask c id p) = Throw (Error msg)) /\
        (code = 0 -> nullish data = false ->
         fst (queryTask c id p) = Normal (projection (JStr id) data))).
Proof.
  intros p c resp fields code msg data [Hok Hjson] Henv.
  split; [| split].
  - intros Hfetch. rewrite getClothes_run, Hfetch, Hok. simpl. split.
    + intros Hne. now rewrite (unwrap_nonzero _ _ _ _ _ p Hjson Henv Hne).
    + intros ->. now rewrite (unwrap_zero _ _ _ _ p Hjson Henv).
  - intros a Hu Hc Hfetch.
    rewrite submitTask_run, !nonempty_true, Hfetch, Hok by assumption. simpl. split.
    + intros Hne. now rewrite (unwrap_nonzero _ _ _ _ _ p Hjson Henv Hne).
    + intros -> Hd. rewrite (unwrap_zero _ _ _ _ p Hjson Henv). simpl.
      now apply project_task_defined.
  - intros id Hfetch. rewrite queryTask_run, Hfetch, Hok. simpl. split.
    + intros Hne. now rewrite (unwrap_nonzero _ _ _ _ _ p Hjson Henv Hne).
    + intros -> Hd. rewrite (unwrap_zero _ _ _ _ p Hjson Henv). simpl.
      now apply project_task_defined.
Qed.

(** C2. For each of the three methods (submitTask once past its own
    validation, which comes before the request), a response whose status
    lies outside 200-299 makes the method throw an error whose text ends
    with that status in decimal, and the trace holds no attempt to parse the
    body. *)
Theorem non_2xx_status_is_reported_unparsed :
  forall (p : Platform) (c : HeyBeautyClient) (resp : HttpResponse),
    status resp < 200 \/ 299 < status resp ->
    (fetch p (getClothes_request c) = Responded resp ->
     fst (getClothes c p)
       = Throw (Error ("request failed with status " ++ Number_toString (status resp))) /\
     parsed_body (snd (getClothes c p)) = false) /\
    (forall a : SubmitTaskArgs,
        user_img_url a <> "" -> cloth_img_url a <> "" ->
        fetch p (submitTask_request c a) = Responded resp ->
        fst (submitTask c a p)
          = Throw (Error ("request failed with status " ++ Number_toString (status resp))) /\
        parsed_body (snd (submitTask c a p)) = false) /\
    (forall id : string,
        fetch p (queryTask_request c id) = Responded resp ->
        fst (queryTask c id p)
          = Throw (Error ("request failed with status: " ++ Number_toString (status resp))) /\
        parsed_body (snd (queryTask c id p)) = false).
Proof.
  intros p c resp Hstatus. apply not_ok in Hstatus.
  split; [| split].
  - intros H. rewrite getClothes_run, H, Hstatus. split; reflexivity.
  - intros a Hu Hc H.
    rewrite submitTask_run, !nonempty_true, H, Hstatus by assumption.
    split; reflexivity.
  - intros id H. rewrite queryTask_run, H, Hstatus. split; reflexivity.
Qed.

(** C3. Whenever user_img_url or cloth_img_url is the empty string,
    whatever cloth_id and cloth_description are, submitTask throws its
    validation error and its trace is empty: no HTTP request is issued. *)
Theorem submitTask_rejects_empty_image_url :
  forall (p : Platform) (c : HeyBeautyClient) (a : SubmitTaskArgs),
    user_img_url a = "" \/ cloth_img_url a = "" ->
    submitTask c a p
      = (Throw (Error "user_img_url and cloth_img_url are required"), []).
Proof.
  intros p c a H. rewrite submitTask_run.
  destruct H as [-> | ->]; simpl; [reflexivity |].
  now rewrite andb_false_r.
Qed.

(** C4. Whenever submitTask passes validation, it issues exactly one
    request, whose body holds user_img_url, cloth_img_url, category 1 and
    is_sync 0, followed by cloth_id exactly when a non-empty cloth_id was
    supplied and by caption (the cloth_description) exactly when a non-empty
    cloth_description was supplied; the two keys are absent otherwise. *)
Theorem submitTask_request_body :
  forall (p : Platform) (c : HeyBeautyClient) (a : SubmitTaskArgs),
    user_img_url a <> "" -> cloth_img_url a <> "" ->
    exists (req : HttpRequest) (fields : list (string * JsVal)),
      fetches (snd (submitTask c a p)) = [req] /\
      body req = JObj fields /\
      fields = ([("user_img_url", JStr (user_img_url a));
                 ("cloth_img_url", JStr (cloth_img_url a));
                 ("category", JStr "1");
                 ("is_sync", JStr "0")]
                ++ optional_field "cloth_id" (cloth_id a)
                ++ optional_field "caption" (cloth_description a))%list /\
      has_own fields "cloth_id" = supplied (cloth_id a) /\
      has_own fields "caption" = supplied (cloth_description a).
Proof.
  intros p c a Hu Hc.
  exists (submitTask_request c a). eexists.
  split; [| split; [reflexivity |]].
  - rewrite submitTask_run, !nonempty_true by assumption. simpl.
    destruct (fetch p _) as [e | resp]; [reflexivity |].
    destruct (ok resp); reflexivity.
  - unfold optional_field, supplied, nonempty.
    destruct (cloth_id a) as [i |], (cloth_description a) as [d |]; simpl;
      repeat match goal with
             | |- context [(?s =? "")%string] => destruct (s =? "")%string; simpl
             end;
      repeat split; reflexivity.
Qed.

(** C5. For every successful remote response (2xx, envelope code 0, a task
    record as data), submitTask and queryTask return the projection: task_id
    is the record's uuid for submitTask and the caller's task_id for
    queryTask whatever the record holds, created_at, updated_at and status
    are copied from the record, and tryon_img_url is the record's value when
    it is truthy and the empty string otherwise. *)
Theorem task_projection :
  forall (p : Platform) (c : HeyBeautyClient) (resp : HttpResponse)
         (fields : list (string * JsVal)) (msg : string) (data : JsVal),
    successful resp fields ->
    envelope_of fields 0 msg data ->
    nullish data = false ->
    (forall a : SubmitTaskArgs,
        user_img_url a <> "" -> cloth_img_url a <> "" ->
        fetch p (submitTask_request c a) = Responded resp ->
        exists t : TryOnTask,
          fst (submitTask c a p) = Normal t /\
          task_id t = field data "uuid" /\
          created_at t = field data "created_at" /\
          updated_at t = field data "updated_at" /\
          task_status t = field data "status" /\
          tryon_img_url t =
            (if ToBoolean (field data "tryon_img_url")
             then field data "tryon_img_url" else JStr "")) /\
    (forall id : string,
        fetch p (queryTask_request c id) = Responded resp ->
        exists t : TryOnTask,
          fst (queryTask c id p) = Normal t /\
          task_id t = JStr id /\
          created_at t = field data "created_at" /\
          updated_at t = field data "updated_at" /\
          task_status t = field data "status" /\
          tryon_img_url t =
            (if ToBoolean (field data "tryon_img_url")
             then field data "tryon_img_url" else JStr "")).
Proof.
  intros p c resp fields msg data [Hok Hjson] Henv Hdata. split.
  - intros a Hu Hc Hfetch. eexists. split.
    + rewrite submitTask_run, !nonempty_true, Hfetch, Hok by assumption. simpl.
      rewrite (unwrap_zero _ _ _ _ p Hjson Henv). simpl.
      now apply project_task_defined.
    + repeat split.
  - intros id Hfetch. eexists. split.
    + rewrite queryTask_run, Hfetch, Hok. simpl.
      rewrite (unwrap_zero _ _ _ _ p Hjson Henv). simpl.
      now apply project_task_defined.
    + repeat split.
Qed.

Lemma strict_neq_zero_true (v : JsVal) : v <> JNum 0 -> strict_neq_zero v = true.
Proof.
  intros H. destruct v; try reflexivity. simpl.
  destruct (Z.eqb_spec n 0); [subst; contradiction | reflexivity].
Qed.

Lemma strict_neq_zero_false (v : JsVal) : strict_neq_zero v = false -> v = JNum 0.
Proof.
  destruct v; try discriminate. simpl.
  destruct (Z.eqb_spec n 0); [now subst | discriminate].
Qed.

Lemma unwrap_envelope resp v p :
  json resp = Normal v ->
  nullish v = false ->
  fst (unwrap resp p) =
  if strict_neq_zero (field v "code")
  then match new_Error (field v "message") with
       | Normal e => Throw e
       | Throw e => Throw e
       end
  else Normal (field v "data").
Proof.
  intros Hjson Hv. run. rewrite Hjson. simpl.
  rewrite !(Get_field _ _ Hv).
  destruct (strict_neq_zero _); [destruct (new_Error _) |]; reflexivity.
Qed.

Lemma unwrap_no_envelope resp v p :
  json resp = Normal v ->
  nullish v = true ->
  exists m, fst (unwrap resp p) = Throw (TypeError m).
Proof.
  intros Hjson Hv. run. rewrite Hjson.
  destruct v; try discriminate; eexists; reflexivity.
Qed.

Lemma project_task_undefined id key data :
  nullish data = true ->
  exists m, project_task id key data = Throw (TypeError m).
Proof.
  intros H. destruct data; try discriminate; eexists; reflexivity.
Qed.

(** C10 (as the code has it). queryTask validates nothing: for every
    task_id, the empty string included, the first thing it does is the POST
    to get-task-info with body [{task_uuid: task_id}], so no failure of it
    is a validation error.  Its failures are these and no others: the
    transport rejects; the status lies outside 200-299; the body does not
    parse; the parsed body is undefined or null; the envelope's code is not
    the number 0 (the error then carries the envelope's message when that
    is a string, and an empty message when there is none); or the code is 0
    and the data is undefined or null. *)
Theorem queryTask_never_validates :
  forall (p : Platform) (c : HeyBeautyClient) (id : string),
    (exists rest : Trace,
        snd (queryTask c id p)
          = EvFetch {| url := apiBaseUrl c ++ "/get-task-info";
                       method := "POST";
                       headers := [("Content-Type", "application/json");
                                   ("Authorization", "Bearer " ++ apiKey c)];
                       body := JObj [("task_uuid", JStr id)] |} :: rest) /\
    (forall e : JsError,
        fst (queryTask c id p) = Throw e -> query_failure p c id e) /\
    (forall e : JsError,
        query_failure p c id e -> exists e' : JsError, fst (queryTask c id p) = Throw e').
Proof.
  intros p c id. split; [| split].
  - rewrite queryTask_run.
    destruct (fetch p _) as [e | resp]; [eexists; reflexivity |].
    destruct (ok resp); eexists; reflexivity.
  - intros e. rewrite queryTask_run.
    destruct (fetch p _) as [e0 | resp] eqn:Hfetch; simpl.
    { intros [= <-]. now apply transport_rejected. }
    destruct (ok resp) eqn:Hok; simpl.
    2:{ intros [= <-]. apply (status_not_2xx p c id _ resp Hfetch); [| reflexivity].
        unfold ok in Hok.
        destruct (Z.leb_spec 200 (status resp)), (Z.leb_spec (status resp) 299);
          simpl in Hok; try discriminate; lia. }
    destruct (json resp) as [v | e0] eqn:Hjson.
    2:{ rewrite (unwrap_unparseable_body resp e0 p Hjson). intros [= <-].
        now apply (body_unparseable p c id _ resp). }
    destruct (nullish v) eqn:Hv.
    { destruct (unwrap_no_envelope resp v p Hjson Hv) as (m & ->).
      intros [= <-]. now apply (envelope_missing p c id _ resp v m). }
    rewrite (unwrap_envelope resp v p Hjson Hv).
    destruct (strict_neq_zero (field v "code")) eqn:Hcode.
    + assert (Hne : field v "code" <> JNum 0).
      { intros Heq. rewrite Heq in Hcode. discriminate Hcode. }
      intros He.
      apply (code_not_zero p c id _ resp v Hfetch Hok Hjson Hv Hne).
      * intros text Hm. rewrite Hm in He. simpl in He. congruence.
      * intros Hm. rewrite Hm in He. simpl in He. congruence.
    + apply strict_neq_zero_false in Hcode.
      destruct (nullish (field v "data")) eqn:Hdata.
      * destruct (project_task_undefined (fun _ => JStr id) "created_at" _ Hdata) as (m & ->).
        intros [= <-]. now apply (data_missing p c id _ resp v m).
      * rewrite (project_task_defined _ _ _ Hdata). intros H. discriminate H.
  - intros e Hq. rewrite queryTask_run.
    destruct Hq as [Hfetch
                   | resp Hfetch Hstatus He
                   | resp Hfetch Hok Hjson
                   | resp v m Hfetch Hok Hjson Hv He
                   | resp v Hfetch Hok Hjson Hv Hcode Hstr Hundef
                   | resp v m Hfetch Hok Hjson Hv Hcode Hdata He]; rewrite Hfetch.
    + eexists; reflexivity.
    + rewrite (not_ok _ Hstatus). eexists; reflexivity.
    + rewrite Hok. simpl. rewrite (unwrap_unparseable_body resp e p Hjson).
      eexists; reflexivity.
    + rewrite Hok. simpl.
      destruct (unwrap_no_envelope resp v p Hjson Hv) as (m' & ->). eexists; reflexivity.
    + rewrite Hok. simpl. rewrite (unwrap_envelope resp v p Hjson Hv).
      rewrite (strict_neq_zero_true _ Hcode).
      destruct (new_Error (field v "message")); eexists; reflexivity.
    + rewrite Hok. simpl. rewrite (unwrap_envelope resp v p Hjson Hv), Hcode. simpl.
      destruct (project_task_undefined (fun _ => JStr id) "created_at" _ Hdata) as (m' & ->).
      eexists; reflexivity.
Qed.

(** C10, the claim as stated fails: with status 200 and envelope code 0,
    queryTask still fails when the envelope's data is null. *)
Lemma queryTask_fails_on_null_data :
  ok {| status := 200; json := Normal (Scenario.envelope 0 "success" JNull) |} = true /\
  field (Scenario.envelope 0 "success" JNull) "code" = JNum 0 /\
  exists m : string,
    fst (queryTask Scenario.client "t-1"
           (Scenario.remote 200 (Scenario.envelope 0 "success" JNull)))
      = Throw (TypeError m).
Proof. split; [reflexivity |]. split; [reflexivity |]. eexists. reflexivity. Qed.

(** *** The client claims on concrete runs *)

Lemma envelope_code_decides_outcome_witness :
  successful {| status := 200; json := Normal (Scenario.envelope 7 "quota exceeded" JNull) |}
             [("code", JNum 7); ("message", JStr "quota exceeded"); ("data", JNull)] /\
  fst (getClothes Scenario.client
         (Scenario.remote 200 (Scenario.envelope 7 "quota exceeded" JNull)))
    = Throw (Error "quota exceeded") /\
  fst (submitTask Scenario.client Scenario.scenario_args
         (Scenario.remote 200 (Scenario.envelope 0 "success" Scenario.task_record)))
    = Normal (projection (JStr "abc123") Scenario.task_record) /\
  fst (queryTask Scenario.client "t-1"
         (Scenario.remote 200 (Scenario.envelope 0 "success" Scenario.task_record)))
    = Normal (projection (JStr "t-1") Scenario.task_record).
Proof.
  split; [split; reflexivity |].
  split; [| split].
  - refine (proj1 (proj1 (envelope_code_decides_outcome
                            (Scenario.remote 200 (Scenario.envelope 7 "quota exceeded" JNull))
                            Scenario.client
                            {| status := 200;
                               json := Normal (Scenario.envelope 7 "quota exceeded" JNull) |}
                            [("code", JNum 7); ("message", JStr "quota exceeded");
                             ("data", JNull)]
                            7 "quota exceeded" JNull _ _) eq_refl) _).
    + split; reflexivity.
    + repeat split.
    + discriminate.
  - refine (proj2 (proj1 (proj2 (envelope_code_decides_outcome
                            (Scenario.remote 200 (Scenario.envelope 0 "success" Scenario.task_record))
                            Scenario.client
                            {| status := 200;
                               json := Normal (Scenario.envelope 0 "success" Scenario.task_record) |}
                            [("code", JNum 0); ("message", JStr "success");
                             ("data", Scenario.task_record)]
                            0 "success" Scenario.task_record _ _))
                          Scenario.scenario_args _ _ eq_refl) eq_refl eq_refl).
    + split; reflexivity.
    + repeat split.
    + discriminate.
    + discriminate.
  - refine (proj2 (proj2 (proj2 (envelope_code_decides_outcome
                            (Scenario.remote 200 (Scenario.envelope 0 "success" Scenario.task_record))
                            Scenario.client
                            {| status := 200;
                               json := Normal (Scenario.envelope 0 "success" Scenario.task_record) |}
                            [("code", JNum 0); ("message", JStr "success");
                             ("data", Scenario.task_record)]
                            0 "success" Scenario.task_record _ _))
                          "t-1" eq_refl) eq_refl eq_refl).
    + split; reflexivity.
    + repeat split.
Defined.

Lemma non_2xx_status_is_reported_unparsed_witness :
  (status {| status := 503; json := Normal (JStr "unavailable") |} < 200 \/
   299 < status {| status := 503; json := Normal (JStr "unavailable") |}) /\
  fst (getClothes Scenario.client (Scenario.remote 503 (JStr "unavailable")))
    = Throw (Error "request failed with status 503") /\
  fst (submitTask Scenario.client Scenario.scenario_args
         (Scenario.remote 503 (JStr "unavailable")))
    = Throw (Error "request failed with status 503") /\
  fst (queryTask Scenario.client "t-1" (Scenario.remote 503 (JStr "unavailable")))
    = Throw (Error "request failed with status: 503") /\
  parsed_body (snd (queryTask Scenario.client "t-1"
                      (Scenario.remote 503 (JStr "unavailable")))) = false.
Proof.
  assert (Hs : status {| status := 503; json := Normal (JStr "unavailable") |} < 200 \/
               299 < status {| status := 503; json := Normal (JStr "unavailable") |})
    by (right; reflexivity).
  pose proof (non_2xx_status_is_reported_unparsed
                (Scenario.remote 503 (JStr "unavailable")) Scenario.client
                {| status := 503; json := Normal (JStr "unavailable") |} Hs)
    as (Hget & Hsubmit & Hquery).
  split; [exact Hs |].
  split; [exact (proj1 (Hget eq_refl)) |].
  split.
  - refine (proj1 (Hsubmit Scenario.scenario_args _ _ eq_refl)); discriminate.
  - exact (Hquery "t-1" eq_refl).
Defined.

Lemma submitTask_rejects_empty_image_url_witness :
  submitTask Scenario.client
    {| user_img_url := "https://x/u.jpg"; cloth_img_url := "";
       cloth_id := Some "c-9"; cloth_description := Some "red dress" |}
    (Scenario.remote 200 (Scenario.envelope 0 "success" Scenario.task_record))
  = (Throw (Error "user_img_url and cloth_img_url are required"), []).
Proof.
  apply submitTask_rejects_empty_image_url. right. reflexivity.
Defined.

Lemma submitTask_request_body_witness :
  exists (req : HttpRequest) (fields : list (string * JsVal)),
    fetches (snd (submitTask Scenario.client
                    {| user_img_url := "https://x/u.jpg";
                       cloth_img_url := "https://x/c.jpg";
                       cloth_id := Some "c-9"; cloth_description := Some "" |}
                    (Scenario.remote 200 (Scenario.envelope 0 "success" Scenario.task_record))))
      = [req] /\
    body req = JObj fields /\
    fields = [("user_img_url", JStr "https://x/u.jpg");
              ("cloth_img_url", JStr "https://x/c.jpg");
              ("category", JStr "1"); ("is_sync", JStr "0");
              ("cloth_id", JStr "c-9")] /\
    has_own fields "cloth_id" = true /\
    has_own fields "caption" = false.
Proof.
  refine (submitTask_request_body
            (Scenario.remote 200 (Scenario.envelope 0 "success" Scenario.task_record))
            Scenario.client
            {| user_img_url := "https://x/u.jpg"; cloth_img_url := "https://x/c.jpg";
               cloth_id := Some "c-9"; cloth_description := Some "" |} _ _);
    discriminate.
Defined.

Lemma task_projection_witness :
  exists t : TryOnTask,
    fst (submitTask Scenario.client Scenario.scenario_args
           (Scenario.remote 200 (Scenario.envelope 0 "success" Scenario.task_record)))
      = Normal t /\
    task_id t = JStr "abc123" /\
    created_at t = JStr "2025-01-01 00:00:00" /\
    updated_at t = JStr "2025-01-01 00:00:00" /\
    task_status t = JStr "pending" /\
    tryon_img_url t = JStr "".
Proof.
  refine (proj1 (task_projection
                   (Scenario.remote 200 (Scenario.envelope 0 "success" Scenario.task_record))
                   Scenario.client
                   {| status := 200;
                      json := Normal (Scenario.envelope 0 "success" Scenario.task_record) |}
                   [("code", JNum 0); ("message", JStr "success");
                    ("data", Scenario.task_record)]
                   "success" Scenario.task_record _ _ eq_refl)
                Scenario.scenario_args _ _ eq_refl).
  - split; reflexivity.
  - repeat split.
  - discriminate.
  - discriminate.
Defined.

Lemma queryTask_never_validates_witness :
  query_failure (Scenario.remote 200 (Scenario.envelope 5 "task not found" JNull))
                Scenario.client "" (Error "task not found").
Proof.
  apply (proj1 (proj2 (queryTask_never_validates
                         (Scenario.remote 200 (Scenario.envelope 5 "task not found" JNull))
                         Scenario.client ""))).
  reflexivity.
Defined.

(** ** Traces of the handlers *)

Lemma silent_ret {A} (a : A) : silent (ret a).
Proof. intros p. reflexivity. Qed.

Lemma silent_throw {A} (e : JsError) : silent (@throw A e).
Proof. intros p. reflexivity. Qed.

Lemma silent_lift {A} (c : Completion A) : silent (lift c).
Proof. intros p. reflexivity. Qed.

Lemma silent_bind {A B} (m : M A) (k : A -> M B) :
  silent m -> (forall a, silent (k a)) -> silent (bind m k).
Proof.
  intros Hm Hk p. unfold bind. specialize (Hm p).
  destruct (m p) as [[a | e] t]; simpl in *; subst t; [| reflexivity].
  specialize (Hk a p). destruct (k a p) as [r t]. exact Hk.
Qed.

Lemma silent_if {A} (b : bool) (m1 m2 : M A) :
  silent m1 -> silent m2 -> silent (if b then m1 else m2).
Proof. destruct b; auto. Qed.

Lemma silent_string_to_number s : silent (string_to_number s).
Proof. intros p. reflexivity. Qed.

Lemma silent_new_URL_pathname s : silent (new_URL_pathname s).
Proof. intros p. reflexivity. Qed.

#[local] Hint Resolve silent_ret silent_throw silent_lift silent_bind silent_if
  silent_string_to_number silent_new_URL_pathname : silent.

Lemma silent_loose_eq_string v s : silent (loose_eq_string v s).
Proof. destruct v; simpl; auto with silent. Qed.

Lemma silent_resource_of_clothe clothe : silent (resource_of_clothe clothe).
Proof. unfold resource_of_clothe. auto 10 with silent. Qed.

Lemma silent_clothe_has_id id clothe : silent (clothe_has_id id clothe).
Proof.
  unfold clothe_has_id. apply silent_bind; [apply silent_lift |].
  intros a. apply silent_loose_eq_string.
Qed.

Lemma silent_Array_map {B} (f : JsVal -> M B) v :
  (forall x, silent (f x)) -> silent (Array_map v f).
Proof.
  intros Hf. destruct v; simpl; auto with silent.
  induction items as [| x rest IH]; simpl; auto 6 with silent.
Qed.

Lemma silent_Array_find pred v :
  (forall x, silent (pred x)) -> silent (Array_find v pred).
Proof.
  intros Hf. destruct v; simpl; auto with silent.
  induction items as [| x rest IH]; simpl; auto 6 with silent.
Qed.

(** A silent computation contributes nothing to the trace of a sequence. *)
Lemma bind_silent_l {A B} (m : M A) (k : A -> M B) p :
  silent m ->
  bind m k p = match fst (m p) with
               | Normal a => k a p
               | Throw e => (Throw e, [])
               end.
Proof.
  intros Hm. unfold bind. specialize (Hm p).
  destruct (m p) as [[a | e] t]; simpl in *; subst t; [| reflexivity].
  now destruct (k a p).
Qed.

Lemma bind_silent_r {A B} (m : M A) (k : A -> M B) p :
  (forall a, silent (k a)) ->
  snd (bind m k p) = snd (m p).
Proof.
  intros Hk. unfold bind.
  destruct (m p) as [[a | e] t]; simpl; [| reflexivity].
  specialize (Hk a p). destruct (k a p) as [r t2]. simpl in *. subst t2.
  apply app_nil_r.
Qed.

Lemma try_catch_trace {A} (m : M A) (h : JsError -> M A) p :
  (forall e, silent (h e)) ->
  snd (try_catch m h p) = snd (m p).
Proof.
  intros Hh. unfold try_catch.
  destruct (m p) as [[a | e] t]; simpl; [reflexivity |].
  specialize (Hh e p). destruct (h e p) as [r t2]. simpl in *. subst t2.
  apply app_nil_r.
Qed.

(** What a catch clause that rethrows with a prefix lets out. *)
Lemma try_catch_prefix {A} (m : M A) (pre : string) p e :
  fst (try_catch m (fun error => throw (Error (pre ++ message error))) p) = Throw e ->
  exists cause, fst (m p) = Throw cause /\ e = Error (pre ++ message cause).
Proof.
  unfold try_catch, throw.
  destruct (m p) as [[a | e'] t]; simpl; [discriminate |].
  intros [= <-]. now exists e'.
Qed.

(** The requests each client method issues. *)
Lemma getClothes_fetches c p :
  fetches (snd (getClothes c p)) = [getClothes_request c].
Proof.
  rewrite getClothes_run.
  destruct (fetch p _) as [e | resp]; [reflexivity |].
  destruct (ok resp); reflexivity.
Qed.

Lemma submitTask_fetches c a p :
  fetches (snd (submitTask c a p)) = [] \/
  fetches (snd (submitTask c a p)) = [submitTask_request c a].
Proof.
  rewrite submitTask_run.
  destruct (nonempty (user_img_url a) && nonempty (cloth_img_url a)); [right | now left].
  destruct (fetch p _) as [e | resp]; [reflexivity |].
  destruct (ok resp); reflexivity.
Qed.

Lemma queryTask_fetches c id p :
  fetches (snd (queryTask c id p)) = [queryTask_request c id].
Proof.
  rewrite queryTask_run.
  destruct (fetch p _) as [e | resp]; [reflexivity |].
  destruct (ok resp); reflexivity.
Qed.

#[local] Hint Resolve silent_resource_of_clothe silent_clothe_has_id
  silent_Array_map silent_Array_find : silent.

(** Every handler run leaves the trace of at most one client call, made
    with the resolved key. *)
Lemma handle_trace cfg request p :
  let c := new_HeyBeautyClient (resolve_apiKey cfg request) None in
  snd (handle cfg request p) = [] \/
  snd (handle cfg request p) = snd (getClothes c p) \/
  (exists a, snd (handle cfg request p) = snd (submitTask c a p)) \/
  (exists id, snd (handle cfg request p) = snd (queryTask c id p)).
Proof.
  intros c. subst c. unfold handle.
  destruct (params request) as [| uri | | name arguments | | name].
  - unfold ListResourcesHandler.
    rewrite try_catch_trace by (intros; apply silent_throw).
    destruct (nonempty (resolve_apiKey cfg request)); simpl; [| now left].
    rewrite bind_silent_r by auto with silent. right. now left.
  - unfold ReadResourceHandler.
    rewrite try_catch_trace by (intros; apply silent_throw).
    destruct (nonempty (resolve_apiKey cfg request)); simpl; [| now left].
    rewrite bind_silent_l by auto with silent.
    destruct (fst (new_URL_pathname uri p)); [| now left].
    rewrite bind_silent_r; [right; now left |].
    intros clothes. apply silent_bind; [auto with silent |].
    intros x. apply silent_if; auto with silent.
  - now left.
  - unfold CallToolHandler.
    rewrite try_catch_trace by (intros; apply silent_throw).
    destruct (nonempty (resolve_apiKey cfg request)); simpl; [| now left].
    destruct (name =? "submit_tryon_task")%string.
    + repeat (rewrite bind_silent_l by auto with silent;
              match goal with
              | |- context [fst (lift ?x p)] => destruct (fst (lift x p)); [| now left]
              end).
      destruct (negb (nonempty a)); [now left |].
      destruct (negb (nonempty a0)); [now left |].
      rewrite bind_silent_r by auto with silent.
      right. right. left. eexists. reflexivity.
    + destruct (name =? "query_tryon_task")%string; [| now left].
      rewrite bind_silent_l by auto with silent.
      destruct (fst (lift _ p)); [| now left].
      destruct (negb (nonempty a)); [now left |].
      rewrite bind_silent_r by auto with silent.
      right. right. right. eexists. reflexivity.
  - now left.
  - unfold GetPromptHandler. destruct (negb _); now left.
Qed.

Lemma handle_fetches cfg request p :
  (length (fetches (snd (handle cfg request p))) <= 1)%nat /\
  Forall (authorized (resolve_apiKey cfg request))
         (fetches (snd (handle cfg request p))).
Proof.
  destruct (handle_trace cfg request p) as [H | [H | [[a H] | [id H]]]]; rewrite H.
  - split; [simpl; lia | constructor].
  - rewrite getClothes_fetches. split; [simpl; lia |].
    constructor; [now left | constructor].
  - destruct (submitTask_fetches (new_HeyBeautyClient (resolve_apiKey cfg request) None) a p)
      as [E | E]; rewrite E.
    + split; [simpl; lia | constructor].
    + split; [simpl; lia |]. constructor; [now left | constructor].
  - rewrite queryTask_fetches. split; [simpl; lia |].
    constructor; [right; now left | constructor].
Qed.

(** ** Claims about the handlers *)

Lemma missing_key_fails_first cfg request p prefix :
  failure_prefix (params request) = Some prefix ->
  nonempty (resolve_apiKey cfg request) = false ->
  handle cfg request p = (Throw (Error (prefix ++ "HEYBEAUTY_API_KEY is not set")), []).
Proof.
  intros Hp Hk. unfold handle.
  destruct (params request); simpl in Hp; try discriminate;
    injection Hp as <-;
    unfold ListResourcesHandler, ReadResourceHandler, CallToolHandler, try_catch;
    rewrite Hk; reflexivity.
Qed.

Lemma resolve_request_key cfg request k :
  auth_HEYBEAUTY_API_KEY request = Some k -> k <> "" ->
  resolve_apiKey cfg request = k.
Proof.
  intros H Hk. unfold resolve_apiKey. now rewrite H, (nonempty_true _ Hk).
Qed.

Lemma resolve_default_key cfg request k :
  supplied (auth_HEYBEAUTY_API_KEY request) = false ->
  param_HEYBEAUTY_API_KEY cfg = Some k -> k <> "" ->
  resolve_apiKey cfg request = k.
Proof.
  intros H Hc Hk. unfold resolve_apiKey, heybeautyApiKey. rewrite Hc, (nonempty_true _ Hk).
  destruct (auth_HEYBEAUTY_API_KEY request) as [a |]; simpl in H; [| reflexivity].
  now rewrite H.
Qed.

Lemma resolve_no_key cfg request :
  supplied (auth_HEYBEAUTY_API_KEY request) = false ->
  supplied (param_HEYBEAUTY_API_KEY cfg) = false ->
  resolve_apiKey cfg request = "".
Proof.
  intros H Hc. unfold resolve_apiKey, heybeautyApiKey.
  destruct (param_HEYBEAUTY_API_KEY cfg) as [d |]; simpl in Hc; rewrite ?Hc;
    (destruct (auth_HEYBEAUTY_API_KEY request) as [a |]; simpl in H; [now rewrite H | reflexivity]).
Qed.

(** C8 (as the code has it). The three handlers that call the remote
    service (list resources, read resource, call tool) resolve the API key
    before anything else: when neither the request nor the process supplies
    one they fail, with no effect performed, with their prefix followed by
    HEYBEAUTY_API_KEY is not set; a key in the request is the one every HTTP
    request of the run carries, and the process-wide key is used only when
    the request supplies none.  The list-tools, list-prompts and get-prompt
    handlers answer the same whatever keys are present. *)
Theorem api_key_resolution :
  forall (cfg : Config) (request : Request) (p : Platform),
    (forall prefix : string,
        failure_prefix (params request) = Some prefix ->
        (supplied (auth_HEYBEAUTY_API_KEY request) = false ->
         supplied (param_HEYBEAUTY_API_KEY cfg) = false ->
         handle cfg request p
           = (Throw (Error (prefix ++ "HEYBEAUTY_API_KEY is not set")), [])) /\
        (forall k : string,
            auth_HEYBEAUTY_API_KEY request = Some k -> k <> "" ->
            Forall (authorized k) (fetches (snd (handle cfg request p)))) /\
        (forall k : string,
            supplied (auth_HEYBEAUTY_API_KEY request) = false ->
            param_HEYBEAUTY_API_KEY cfg = Some k -> k <> "" ->
            Forall (authorized k) (fetches (snd (handle cfg request p))))) /\
    (failure_prefix (params request) = None ->
     forall (cfg' : Config) (auth' : option string),
       handle cfg request p
         = handle cfg' {| auth_HEYBEAUTY_API_KEY := auth'; params := params request |} p).
Proof.
  intros cfg request p. split.
  - intros prefix Hp. split; [| split].
    + intros Ha Hc. apply missing_key_fails_first; [assumption |].
      now rewrite (resolve_no_key _ _ Ha Hc).
    + intros k Ha Hk. rewrite <- (resolve_request_key cfg request k Ha Hk).
      apply handle_fetches.
    + intros k Ha Hc Hk. rewrite <- (resolve_default_key cfg request k Ha Hc Hk).
      apply handle_fetches.
  - intros Hp cfg' auth'. unfold handle. simpl.
    destruct (params request); simpl in Hp; try discriminate; reflexivity.
Qed.

Lemma try_block_defined cfg request prefix :
  failure_prefix (params request) = Some prefix ->
  exists body,
    try_block cfg request = Some body /\
    handle cfg request = try_catch body (rethrow_prefixed prefix).
Proof.
  unfold try_block, handle.
  destruct (params request); simpl; intros H; try discriminate H;
    injection H as <-; eexists; split; reflexivity.
Qed.

Lemma try_catch_throws (body : M Response) prefix p inner :
  fst (body p) = Throw inner ->
  try_catch body (rethrow_prefixed prefix) p
    = (Throw (Error (prefix ++ message inner)), snd (body p)).
Proof.
  unfold try_catch, rethrow_prefixed, throw.
  destruct (body p) as [[r | e] t]; simpl; intros H; [discriminate H |].
  injection H as ->. now rewrite app_nil_r.
Qed.

Lemma try_catch_returns (body : M Response) prefix p result :
  fst (body p) = Normal result ->
  try_catch body (rethrow_prefixed prefix) p = (Normal result, snd (body p)).
Proof.
  unfold try_catch.
  destruct (body p) as [[r | e] t]; simpl; intros H; [| discriminate H].
  now injection H as ->.
Qed.

(** C9 (as the code has it). In the list-resources, read-resource and
    call-tool handlers every error raised inside the try block is caught at
    the handler's boundary and thrown again, once, as one error whose
    message is the handler's prefix followed by the message of the error
    that was raised, with the effects of the try block and no others; a
    result of the try block is returned as it is; and every error such a
    handler throws arises this way.  The other handlers have no catch
    clause: list-tools and list-prompts never throw, and get-prompt throws
    Unknown prompt, unprefixed, for every name but tryon_cloth and for no
    other.  No handler run issues more than one HTTP request, so nothing is
    retried. *)
Theorem handler_errors_are_wrapped_once :
  forall (cfg : Config) (request : Request) (p : Platform),
    (forall prefix : string,
        failure_prefix (params request) = Some prefix ->
        exists body : M Response,
          try_block cfg request = Some body /\
          handle cfg request = try_catch body (rethrow_prefixed prefix) /\
          (forall inner : JsError,
              fst (body p) = Throw inner ->
              handle cfg request p
                = (Throw (Error (prefix ++ message inner)), snd (body p))) /\
          (forall result : Response,
              fst (body p) = Normal result ->
              handle cfg request p = (Normal result, snd (body p))) /\
          (forall e : JsError,
              fst (handle cfg request p) = Throw e ->
              exists inner : JsError,
                fst (body p) = Throw inner /\ e = Error (prefix ++ message inner))) /\
    (forall (prefix : string) (e : JsError),
        failure_prefix (params request) = Some prefix ->
        fst (handle cfg request p) = Throw e ->
        exists cause : string, e = Error (prefix ++ cause)) /\
    (forall e : JsError,
        failure_prefix (params request) = None ->
        fst (handle cfg request p) = Throw e ->
        e = Error "Unknown prompt" /\
        exists name : string, params request = GetPrompt name /\ name <> "tryon_cloth") /\
    (forall name : string,
        params request = GetPrompt name -> name <> "tryon_cloth" ->
        handle cfg request p = (Throw (Error "Unknown prompt"), [])) /\
    (params request = ListTools \/ params request = ListPrompts ->
     exists result : Response, handle cfg request p = (Normal result, [])) /\
    (length (fetches (snd (handle cfg request p))) <= 1)%nat.
Proof.
  intros cfg request p. split; [| split; [| split; [| split; [| split]]]].
  - intros prefix Hp.
    destruct (try_block_defined cfg request prefix Hp) as (body & Hbody & Hhandle).
    exists body. split; [exact Hbody |]. split; [exact Hhandle |].
    rewrite Hhandle. split; [| split].
    + intros inner. apply try_catch_throws.
    + intros result. apply try_catch_returns.
    + intros e He. apply try_catch_prefix in He as (inner & Hin & ->). now exists inner.
  - intros prefix e Hp. unfold handle.
    destruct (params request); simpl in Hp; try discriminate; injection Hp as <-;
      intros He; apply try_catch_prefix in He as (cause & _ & ->); eauto.
  - intros e Hp. unfold handle.
    destruct (params request) as [| | | | | name]; simpl in Hp; try discriminate.
    unfold GetPromptHandler.
    destruct (String.eqb_spec name "tryon_cloth"); simpl; [discriminate |].
    intros [= <-]. split; [reflexivity |]. now exists name.
  - intros name Hp Hne. unfold handle. rewrite Hp. unfold GetPromptHandler.
    destruct (String.eqb_spec name "tryon_cloth"); [contradiction | reflexivity].
  - intros [Hp | Hp]; unfold handle; rewrite Hp; eexists; reflexivity.
  - apply handle_fetches.
Qed.

(** C7 (the defect). A call of query_tryon_task without a task_id argument
    is not rejected: the missing argument is stringified to the text
    undefined, passes the emptiness check, and the handler issues the
    get-task-info request for that text. *)
Theorem query_tool_missing_task_id_reaches_remote :
  forall (cfg : Config) (request : Request) (p : Platform)
         (arguments : option (list (string * JsVal))),
    resolve_apiKey cfg request <> "" ->
    params request = CallTool "query_tryon_task" arguments ->
    argument arguments "task_id" = JUndefined ->
    fetches (snd (handle cfg request p))
      = [{| url := "https://heybeauty.ai/api/get-task-info";
            method := "POST";
            headers := [("Content-Type", "application/json");
                        ("Authorization", "Bearer " ++ resolve_apiKey cfg request)];
            body := JObj [("task_uuid", JStr "undefined")] |}].
Proof.
  intros cfg request p arguments Hk Hp Ha.
  unfold handle. rewrite Hp. unfold CallToolHandler.
  rewrite try_catch_trace by (intros; apply silent_throw).
  rewrite (nonempty_true _ Hk), Ha. simpl.
  rewrite bind_silent_l by auto with silent. simpl.
  rewrite bind_silent_r by auto with silent.
  apply queryTask_fetches.
Qed.

(** The check the query tool does make: an argument that stringifies to
    the empty string is rejected before any request. *)
Lemma query_tool_rejects_empty_task_id :
  forall (cfg : Config) (request : Request) (p : Platform)
         (arguments : option (list (string * JsVal))),
    resolve_apiKey cfg request <> "" ->
    params request = CallTool "query_tryon_task" arguments ->
    ToString (argument arguments "task_id") = Normal "" ->
    handle cfg request p = (Throw (Error "call tool failed: task id is required"), []).
Proof.
  intros cfg request p arguments Hk Hp Ha.
  unfold handle. rewrite Hp. unfold CallToolHandler, try_catch.
  rewrite (nonempty_true _ Hk). simpl.
  rewrite bind_silent_l by auto with silent. simpl. rewrite Ha. reflexivity.
Qed.

Lemma query_tool_missing_task_id_reaches_remote_witness :
  fetches (snd (handle Scenario.with_key
                  (Scenario.request (CallTool "query_tryon_task" (Some [])))
                  (Scenario.remote 200 (Scenario.envelope 0 "success" Scenario.task_record))))
    = [{| url := "https://heybeauty.ai/api/get-task-info";
          method := "POST";
          headers := [("Content-Type", "application/json");
                      ("Authorization", "Bearer sk-test")];
          body := JObj [("task_uuid", JStr "undefined")] |}].
Proof.
  apply (query_tool_missing_task_id_reaches_remote
           Scenario.with_key
           (Scenario.request (CallTool "query_tryon_task" (Some [])))
           (Scenario.remote 200 (Scenario.envelope 0 "success" Scenario.task_record))
           (Some [])).
  - discriminate.
  - reflexivity.
  - reflexivity.
Defined.

(** C8, the claim as stated fails: with no API key anywhere, the list-tools
    handler does not fail, it returns the tool descriptors. *)
Lemma list_tools_without_api_key :
  auth_HEYBEAUTY_API_KEY (Scenario.request ListTools) = None /\
  param_HEYBEAUTY_API_KEY Scenario.no_key = None /\
  handle Scenario.no_key (Scenario.request ListTools)
         (Scenario.remote 200 (Scenario.envelope 0 "success" JNull))
    = (Normal (ToolsResult static_tools), []).
Proof. repeat split. Qed.

Lemma api_key_resolution_witness :
  handle Scenario.no_key (Scenario.request ListResources)
         (Scenario.remote 200 (Scenario.envelope 0 "success" (JArr [])))
    = (Throw (Error "get resources failed: HEYBEAUTY_API_KEY is not set"), []) /\
  Forall (authorized "sk-request")
         (fetches (snd (handle Scenario.with_key
                          {| auth_HEYBEAUTY_API_KEY := Some "sk-request";
                             params := CallTool "query_tryon_task"
                                         (Some [("task_id", JStr "t-1")]) |}
                          (Scenario.remote 200
                             (Scenario.envelope 0 "success" Scenario.task_record))))) /\
  Forall (authorized "sk-test")
         (fetches (snd (handle Scenario.with_key
                          {| auth_HEYBEAUTY_API_KEY := Some "";
                             params := ReadResource "cloth:///c-1" |}
                          (Scenario.remote 200 (Scenario.envelope 0 "success" (JArr [])))))).
Proof.
  split; [| split].
  - refine (proj1 (proj1 (api_key_resolution
                            Scenario.no_key (Scenario.request ListResources)
                            (Scenario.remote 200 (Scenario.envelope 0 "success" (JArr []))))
                         "get resources failed: " eq_refl) eq_refl eq_refl).
  - refine (proj1 (proj2 (proj1 (api_key_resolution
                            Scenario.with_key
                            {| auth_HEYBEAUTY_API_KEY := Some "sk-request";
                               params := CallTool "query_tryon_task"
                                           (Some [("task_id", JStr "t-1")]) |}
                            (Scenario.remote 200
                               (Scenario.envelope 0 "success" Scenario.task_record)))
                         "call tool failed: " eq_refl)) "sk-request" eq_refl _).
    discriminate.
  - refine (proj2 (proj2 (proj1 (api_key_resolution
                            Scenario.with_key
                            {| auth_HEYBEAUTY_API_KEY := Some "";
                               params := ReadResource "cloth:///c-1" |}
                            (Scenario.remote 200 (Scenario.envelope 0 "success" (JArr []))))
                         "read resource failed: " eq_refl)) "sk-test" eq_refl eq_refl _).
    discriminate.
Defined.

Lemma prefix_app (s t : string) : String.prefix s (s ++ t) = true.
Proof.
  induction s as [| a s IH]; simpl; [now destruct t |].
  destruct (ascii_dec a a); [exact IH | contradiction].
Qed.

Lemma occurs_app (sub a b : string) : occurs sub (a ++ sub ++ b) = true.
Proof.
  induction a as [| x a IH]; simpl.
  - assert (Hp : String.prefix sub (sub ++ b) = true) by apply prefix_app.
    destruct (sub ++ b); simpl in *; now rewrite Hp.
  - rewrite IH. apply orb_true_r.
Qed.

Lemma operation_prefixed_occurs (msg : string) :
  operation_prefixed msg -> occurs " failed: " msg = true.
Proof. intros (operation & cause & ->). apply occurs_app. Qed.

(** C9, the claim as stated fails: the get-prompt handler lets its error
    out as it is, with no operation in front of it. *)
Lemma get_prompt_error_is_not_prefixed :
  handle Scenario.with_key (Scenario.request (GetPrompt "summarize"))
         (Scenario.remote 200 (Scenario.envelope 0 "success" JNull))
    = (Throw (Error "Unknown prompt"), []) /\
  ~ operation_prefixed "Unknown prompt".
Proof.
  split; [reflexivity |].
  intros H. apply operation_prefixed_occurs in H. discriminate H.
Qed.

Lemma handler_errors_are_wrapped_once_witness :
  exists body : M Response,
    try_block Scenario.with_key (Scenario.request ListResources) = Some body /\
    fst (body (Scenario.remote 500 (JStr "Internal Server Error")))
      = Throw (Error "request failed with status 500") /\
    handle Scenario.with_key (Scenario.request ListResources)
           (Scenario.remote 500 (JStr "Internal Server Error"))
      = (Throw (Error "get resources failed: request failed with status 500"),
         snd (body (Scenario.remote 500 (JStr "Internal Server Error")))).
Proof.
  destruct (proj1 (handler_errors_are_wrapped_once
                     Scenario.with_key (Scenario.request ListResources)
                     (Scenario.remote 500 (JStr "Internal Server Error")))
              "get resources failed: " eq_refl)
    as (body & Hbody & _ & Hthrows & _).
  exists body. split; [exact Hbody |].
  injection Hbody as <-. split; [reflexivity |].
  apply (Hthrows (Error "request failed with status 500")). reflexivity.
Defined.

(** ** Resources: listing and reading back *)

Lemma fst_bind {A B} (m : M A) (k : A -> M B) p :
  fst (bind m k p) = match fst (m p) with
                     | Normal a => fst (k a p)
                     | Throw e => Throw e
                     end.
Proof.
  unfold bind. destruct (m p) as [[a | e] t]; simpl; [| reflexivity].
  now destruct (k a p).
Qed.

Lemma fst_try_catch_normal {A} (m : M A) (h : JsError -> M A) p a :
  fst (m p) = Normal a -> fst (try_catch m h p) = Normal a.
Proof.
  unfold try_catch. destruct (m p) as [[a' | e] t]; simpl; [trivial | discriminate].
Qed.

Lemma getClothes_returns_data c p resp fields msg data :
  fetch p (getClothes_request c) = Responded resp ->
  successful resp fields ->
  envelope_of fields 0 msg data ->
  fst (getClothes c p) = Normal data.
Proof.
  intros Hfetch [Hok Hjson] Henv.
  rewrite getClothes_run, Hfetch, Hok. simpl.
  now rewrite (unwrap_zero _ _ _ _ p Hjson Henv).
Qed.

Lemma resource_of_valid_clothe clothe id p :
  valid_cloth clothe ->
  cloth_field clothe "cloth_id" = Some id ->
  exists r, resource_of_clothe clothe p = (Normal r, []) /\ uri r = "cloth:///" ++ id.
Proof.
  intros (id' & title & d & img & H1 & H2 & H3 & H4) Hid.
  destruct clothe; simpl in *; try discriminate.
  unfold resource_of_clothe, bind, lift, ret. simpl.
  destruct (own_property fields "cloth_id"); try discriminate.
  destruct (own_property fields "description"); try discriminate.
  injection Hid as ->. simpl. eexists. split; reflexivity.
Qed.

Lemma map_items_valid items p :
  Forall valid_cloth items ->
  exists rs,
    map_items resource_of_clothe items p = (Normal rs, []) /\
    forall i item id,
      nth_error items i = Some item ->
      cloth_field item "cloth_id" = Some id ->
      exists r, nth_error rs i = Some r /\ uri r = "cloth:///" ++ id.
Proof.
  induction 1 as [| x rest Hx Hrest (rs & Hrun & Hnth)].
  - exists []. split; [reflexivity |]. intros [| i]; discriminate.
  - assert (Hidx : exists idx, cloth_field x "cloth_id" = Some idx).
    { destruct Hx as (idx & _ & _ & _ & H1 & _). now exists idx. }
    destruct Hidx as (idx & Hidx).
    destruct (resource_of_valid_clothe x idx p Hx Hidx) as (r & Hr & Huri).
    exists (r :: rs). split.
    + simpl. unfold bind. rewrite Hr, Hrun. reflexivity.
    + intros [| i] item id; simpl.
      * intros [= <-] Hid. exists r. split; [reflexivity |].
        assert (idx = id) as <- by congruence. exact Huri.
      * apply Hnth.
Qed.

Lemma clothe_has_id_valid clothe idx id p :
  cloth_field clothe "cloth_id" = Some idx ->
  clothe_has_id id clothe p = (Normal (idx =? id)%string, []).
Proof.
  intros H. destruct clothe; simpl in *; try discriminate.
  unfold clothe_has_id, bind, lift. simpl.
  destruct (own_property fields "cloth_id"); try discriminate.
  injection H as ->. reflexivity.
Qed.

Lemma find_item_first items p :
  Forall valid_cloth items ->
  forall i item id,
    nth_error items i = Some item ->
    cloth_field item "cloth_id" = Some id ->
    (forall j other, (j < i)%nat -> nth_error items j = Some other ->
                     cloth_field other "cloth_id" <> Some id) ->
    find_item (clothe_has_id id) items p = (Normal item, []).
Proof.
  induction 1 as [| x rest Hx Hrest IH]; intros i item id Hnth Hid Hfirst.
  - destruct i; discriminate.
  - destruct Hx as (idx & _ & _ & _ & Hidx & _).
    simpl. unfold bind. rewrite (clothe_has_id_valid x idx id p Hidx).
    destruct i as [| i]; simpl in Hnth.
    + injection Hnth as ->. assert (idx = id) as -> by congruence.
      rewrite String.eqb_refl. reflexivity.
    + destruct (String.eqb_spec idx id) as [-> | Hne].
      * exfalso. apply (Hfirst 0%nat x); [lia | reflexivity | assumption].
      * rewrite (IH i item id Hnth Hid).
        { reflexivity. }
        intros j other Hj Hother. apply (Hfirst (S j) other); [lia | exact Hother].
Qed.

(** C6 (as the code has it). Let the remote answer the clothing-list request
    with the same valid list on both calls.  For every item of the list the
    list-resources handler returns, at the item's position, a resource whose
    URI is cloth:/// followed by the item's cloth_id; and when that cloth_id
    is one the URL parser gives back unchanged as the path, and the item is
    the first of the list with that cloth_id, the read-resource handler
    applied to that URI returns exactly the item's cloth_img_url as the text
    of its single content. *)
Theorem resource_uri_round_trip :
  forall (p : Platform) (cfg : Config) (auth : option string) (key : string)
         (resp : HttpResponse) (fields : list (string * JsVal)) (msg : string)
         (items : list JsVal) (i : nat) (item : JsVal) (id img : string),
    resolve_apiKey cfg {| auth_HEYBEAUTY_API_KEY := auth; params := ListResources |} = key ->
    key <> "" ->
    fetch p (getClothes_request (new_HeyBeautyClient key None)) = Responded resp ->
    successful resp fields ->
    envelope_of fields 0 msg (JArr items) ->
    Forall valid_cloth items ->
    nth_error items i = Some item ->
    cloth_field item "cloth_id" = Some id ->
    cloth_field item "cloth_img_url" = Some img ->
    exists (resources : list Resource) (r : Resource),
      fst (handle cfg {| auth_HEYBEAUTY_API_KEY := auth; params := ListResources |} p)
        = Normal (ResourcesResult resources) /\
      nth_error resources i = Some r /\
      uri r = "cloth:///" ++ id /\
      (URL_pathname p ("cloth:///" ++ id) = Normal ("/" ++ id) ->
       (forall j other, (j < i)%nat -> nth_error items j = Some other ->
                        cloth_field other "cloth_id" <> Some id) ->
       fst (handle cfg {| auth_HEYBEAUTY_API_KEY := auth; params := ReadResource (uri r) |} p)
         = Normal (ContentsResult
                     [{| contents_uri := uri r;
                         contents_mimeType := "text/plain";
                         text := JStr img |}])).
Proof.
  intros p cfg auth key resp fields msg items i item id img
         Hkey Hne Hfetch Hresp Henv Hvalid Hnth Hid Himg.
  pose proof (getClothes_returns_data _ p _ _ _ _ Hfetch Hresp Henv) as Hget.
  destruct (map_items_valid items p Hvalid) as (rs & Hrun & Hrs).
  destruct (Hrs i item id Hnth Hid) as (r & Hr & Huri).
  exists rs, r. split; [| split; [exact Hr | split; [exact Huri |]]].
  - unfold handle, ListResourcesHandler. simpl params. cbv iota.
    apply fst_try_catch_normal.
    rewrite Hkey, (nonempty_true _ Hne). cbn [negb].
    rewrite fst_bind, Hget, fst_bind. simpl Array_map. rewrite Hrun. reflexivity.
  - intros Hurl Hfirst.
    unfold handle, ReadResourceHandler. simpl params. cbv iota.
    apply fst_try_catch_normal.
    change (resolve_apiKey cfg {| auth_HEYBEAUTY_API_KEY := auth;
                                  params := ReadResource (uri r) |})
      with (resolve_apiKey cfg {| auth_HEYBEAUTY_API_KEY := auth;
                                  params := ListResources |}).
    rewrite Hkey, (nonempty_true _ Hne). cbn [negb].
    rewrite fst_bind. unfold new_URL_pathname at 1. simpl fst at 1.
    rewrite Huri, Hurl. simpl replace_leading_slash.
    rewrite fst_bind, Hget, fst_bind. simpl Array_find.
    rewrite (find_item_first items p Hvalid i item id Hnth Hid Hfirst). simpl fst.
    destruct item; simpl in Hid; try discriminate.
    cbn [ToBoolean negb].
    rewrite fst_bind. simpl in Himg. unfold lift, Get. simpl fst.
    destruct (own_property fields0 "cloth_img_url"); try discriminate.
    injection Himg as ->. reflexivity.
Qed.

Lemma resource_uri_round_trip_witness :
  exists (resources : list Resource) (r : Resource),
    fst (handle Scenario.with_key (Scenario.request ListResources)
           (Scenario.remote 200
              (Scenario.envelope 0 "success"
                 (JArr [Scenario.cloth "c-1" "Shirt" "A shirt" "https://x/shirt.jpg";
                        Scenario.cloth "c-2" "Dress" "A dress" "https://x/dress.jpg"]))))
      = Normal (ResourcesResult resources) /\
    nth_error resources 1 = Some r /\
    uri r = "cloth:///c-2" /\
    fst (handle Scenario.with_key (Scenario.request (ReadResource (uri r)))
           (Scenario.remote 200
              (Scenario.envelope 0 "success"
                 (JArr [Scenario.cloth "c-1" "Shirt" "A shirt" "https://x/shirt.jpg";
                        Scenario.cloth "c-2" "Dress" "A dress" "https://x/dress.jpg"]))))
      = Normal (ContentsResult
                  [{| contents_uri := uri r;
                      contents_mimeType := "text/plain";
                      text := JStr "https://x/dress.jpg" |}]).
Proof.
  destruct (resource_uri_round_trip
              (Scenario.remote 200
                 (Scenario.envelope 0 "success"
                    (JArr [Scenario.cloth "c-1" "Shirt" "A shirt" "https://x/shirt.jpg";
                           Scenario.cloth "c-2" "Dress" "A dress" "https://x/dress.jpg"])))
              Scenario.with_key None "sk-test"
              {| status := 200;
                 json := Normal
                   (Scenario.envelope 0 "success"
                      (JArr [Scenario.cloth "c-1" "Shirt" "A shirt" "https://x/shirt.jpg";
                             Scenario.cloth "c-2" "Dress" "A dress" "https://x/dress.jpg"])) |}
              [("code", JNum 0); ("message", JStr "success");
               ("data", JArr [Scenario.cloth "c-1" "Shirt" "A shirt" "https://x/shirt.jpg";
                              Scenario.cloth "c-2" "Dress" "A dress" "https://x/dress.jpg"])]
              "success"
              [Scenario.cloth "c-1" "Shirt" "A shirt" "https://x/shirt.jpg";
               Scenario.cloth "c-2" "Dress" "A dress" "https://x/dress.jpg"]
              1%nat
              (Scenario.cloth "c-2" "Dress" "A dress" "https://x/dress.jpg")
              "c-2" "https://x/dress.jpg")
    as (resources & r & Hlist & Hnth & Huri & Hread).
  - reflexivity.
  - discriminate.
  - reflexivity.
  - split; reflexivity.
  - repeat split.
  - repeat constructor.
    + exists "c-1", "Shirt", "A shirt", "https://x/shirt.jpg". repeat split.
    + exists "c-2", "Dress", "A dress", "https://x/dress.jpg". repeat split.
  - reflexivity.
  - reflexivity.
  - reflexivity.
  - exists resources, r. repeat split; try assumption.
    apply Hread; [reflexivity |].
    intros [| j] other Hj; [| lia]. intros [= <-]. discriminate.
Defined.

(** C6, the claim as stated fails: an item whose cloth_id holds a fragment
    sign is listed under a URI that reads back as another id; the
    read-resource handler then finds no item and fails instead of returning
    the item's image URL. *)
Lemma round_trip_breaks_on_fragment_sign :
  valid_cloth (Scenario.cloth "a#1" "Shirt" "A shirt" "https://x/shirt.jpg") /\
  fst (handle Scenario.with_key (Scenario.request ListResources)
         (Scenario.remote 200
            (Scenario.envelope 0 "success"
               (JArr [Scenario.cloth "a#1" "Shirt" "A shirt" "https://x/shirt.jpg"]))))
    = Normal (ResourcesResult
                [{| uri := "cloth:///a#1"; mimeType := "text/plain";
                    name := JStr "Shirt"; description := "A shirt" |}]) /\
  fst (handle Scenario.with_key (Scenario.request (ReadResource "cloth:///a#1"))
         (Scenario.remote 200
            (Scenario.envelope 0 "success"
               (JArr [Scenario.cloth "a#1" "Shirt" "A shirt" "https://x/shirt.jpg"]))))
    = Throw (Error "read resource failed: Cloth a not found") /\
  fst (handle Scenario.with_key (Scenario.request (ReadResource "cloth:///a#1"))
         (Scenario.remote 200
            (Scenario.envelope 0 "success"
               (JArr [Scenario.cloth "a#1" "Shirt" "A shirt" "https://x/shirt.jpg"]))))
    <> Normal (ContentsResult
                 [{| contents_uri := "cloth:///a#1"; contents_mimeType := "text/plain";
                     text := JStr "https://x/shirt.jpg" |}]).
Proof.
  split; [| split; [reflexivity | split; [reflexivity | discriminate]]].
  exists "a#1", "Shirt", "A shirt", "https://x/shirt.jpg". repeat split.
Qed.

(** A second way the round trip fails: of two items with one cloth_id, the
    URI of the second reads back the image of the first. *)
Example duplicate_cloth_id_reads_first_item :
  fst (handle Scenario.with_key (Scenario.request (ReadResource "cloth:///c-1"))
         (Scenario.remote 200
            (Scenario.envelope 0 "success"
               (JArr [Scenario.cloth "c-1" "Shirt" "A shirt" "https://x/shirt.jpg";
                      Scenario.cloth "c-1" "Dress" "A dress" "https://x/dress.jpg"]))))
    = Normal (ContentsResult
                [{| contents_uri := "cloth:///c-1"; contents_mimeType := "text/plain";
                    text := JStr "https://x/shirt.jpg" |}]).
Proof. reflexivity. Qed.

(** The scenario of the specification: submitTask without cloth_id and
    description, answered with uuid abc123 and status pending. *)
Example submit_scenario :
  submitTask Scenario.client Scenario.scenario_args
    (Scenario.remote 200 (Scenario.envelope 0 "success" Scenario.task_record))
  = (Normal {| task_id := JStr "abc123";
               created_at := JStr "2025-01-01 00:00:00";
               updated_at := JStr "2025-01-01 00:00:00";
               task_status := JStr "pending";
               tryon_img_url := JStr "" |},
     [EvLog (JObj [("user_img_url", JStr "https://x/u.jpg");
                   ("cloth_img_url", JStr "https://x/c.jpg");
                   ("category", JStr "1"); ("is_sync", JStr "0")]);
      EvFetch {| url := "https://heybeauty.ai/api/mcp-vton";
                 method := "POST";
                 headers := [("Authorization", "Bearer sk-test")];
                 body := JObj [("user_img_url", JStr "https://x/u.jpg");
                               ("cloth_img_url", JStr "https://x/c.jpg");
                               ("category", JStr "1"); ("is_sync", JStr "0")] |};
      EvJson {| status := 200;
                json := Normal (Scenario.envelope 0 "success" Scenario.task_record) |}]).
Proof. reflexivity. Qed.

(** * Further properties of the client *)

Lemma api_request_getClothes c : api_request (apiBaseUrl c) (apiKey c) (getClothes_request c).
Proof.
  split; [reflexivity |]. split; [now left |].
  exists "/get-clothes". split; [now left | reflexivity].
Qed.

Lemma api_request_submitTask c a :
  api_request (apiBaseUrl c) (apiKey c) (submitTask_request c a).
Proof.
  split; [reflexivity |]. split; [now left |].
  exists "/mcp-vton". split; [right; now left | reflexivity].
Qed.

Lemma api_request_queryTask c id :
  api_request (apiBaseUrl c) (apiKey c) (queryTask_request c id).
Proof.
  split; [reflexivity |]. split; [right; now left |].
  exists "/get-task-info". split; [right; right; now left | reflexivity].
Qed.

(** X1. Whatever the platform answers, each client method issues at most
    one HTTP request (getClothes and queryTask exactly one), and each
    request is a POST to the client's base URL followed by one of the three
    API paths, carrying the client's key as bearer token. *)
Theorem client_requests_are_authorized_posts :
  forall (c : HeyBeautyClient) (p : Platform),
    (length (fetches (snd (getClothes c p))) = 1%nat /\
     Forall (api_request (apiBaseUrl c) (apiKey c)) (fetches (snd (getClothes c p)))) /\
    (forall a : SubmitTaskArgs,
        (length (fetches (snd (submitTask c a p))) <= 1)%nat /\
        Forall (api_request (apiBaseUrl c) (apiKey c)) (fetches (snd (submitTask c a p)))) /\
    (forall id : string,
        length (fetches (snd (queryTask c id p))) = 1%nat /\
        Forall (api_request (apiBaseUrl c) (apiKey c)) (fetches (snd (queryTask c id p)))).
Proof.
  intros c p. split; [| split].
  - rewrite getClothes_fetches. split; [reflexivity |].
    constructor; [apply api_request_getClothes | constructor].
  - intros a. destruct (submitTask_fetches c a p) as [E | E]; rewrite E.
    + split; [simpl; lia | constructor].
    + split; [simpl; lia |]. constructor; [apply api_request_submitTask | constructor].
  - intros id. rewrite queryTask_fetches. split; [reflexivity |].
    constructor; [apply api_request_queryTask | constructor].
Qed.

(** X2. When the transport fails ([fetch] rejects), each method throws the
    very error the transport gave, after its one request and without
    parsing anything (submitTask: once past its validation). *)
Theorem transport_failure_passes_through :
  forall (c : HeyBeautyClient) (p : Platform) (e : JsError),
    (fetch p (getClothes_request c) = Rejected e ->
     getClothes c p = (Throw e, [EvFetch (getClothes_request c)])) /\
    (forall a : SubmitTaskArgs,
        user_img_url a <> "" -> cloth_img_url a <> "" ->
        fetch p (submitTask_request c a) = Rejected e ->
        submitTask c a p
          = (Throw e, [EvLog (submitTask_body a); EvFetch (submitTask_request c a)])) /\
    (forall id : string,
        fetch p (queryTask_request c id) = Rejected e ->
        queryTask c id p = (Throw e, [EvFetch (queryTask_request c id)])).
Proof.
  intros c p e. split; [| split].
  - intros H. now rewrite getClothes_run, H.
  - intros a Hu Hc H. now rewrite submitTask_run, !nonempty_true, H by assumption.
  - intros id H. now rewrite queryTask_run, H.
Qed.

Lemma transport_failure_passes_through_witness :
  getClothes Scenario.client (offline (TypeError "fetch failed"))
    = (Throw (TypeError "fetch failed"), [EvFetch (getClothes_request Scenario.client)]) /\
  submitTask Scenario.client Scenario.scenario_args (offline (TypeError "fetch failed"))
    = (Throw (TypeError "fetch failed"),
       [EvLog (submitTask_body Scenario.scenario_args);
        EvFetch (submitTask_request Scenario.client Scenario.scenario_args)]) /\
  queryTask Scenario.client "t-1" (offline (TypeError "fetch failed"))
    = (Throw (TypeError "fetch failed"), [EvFetch (queryTask_request Scenario.client "t-1")]).
Proof.
  pose proof (transport_failure_passes_through
                Scenario.client (offline (TypeError "fetch failed"))
                (TypeError "fetch failed")) as (Hget & Hsubmit & Hquery).
  split; [exact (Hget eq_refl) |].
  split; [| exact (Hquery "t-1" eq_refl)].
  refine (Hsubmit Scenario.scenario_args _ _ eq_refl); discriminate.
Defined.

Lemma unwrap_unparseable resp e p :
  json resp = Throw e -> unwrap resp p = (Throw e, [EvJson resp]).
Proof. intros H. run. now rewrite H. Qed.

(** X3. When a successful response has a body that does not parse
    ([resp.json()] rejects), each method throws the parser's error as it
    is; for submitTask and queryTask no projection is built. *)
Theorem unparseable_body_passes_through :
  forall (c : HeyBeautyClient) (p : Platform) (resp : HttpResponse) (e : JsError),
    ok resp = true ->
    json resp = Throw e ->
    (fetch p (getClothes_request c) = Responded resp ->
     fst (getClothes c p) = Throw e) /\
    (forall a : SubmitTaskArgs,
        user_img_url a <> "" -> cloth_img_url a <> "" ->
        fetch p (submitTask_request c a) = Responded resp ->
        fst (submitTask c a p) = Throw e) /\
    (forall id : string,
        fetch p (queryTask_request c id) = Responded resp ->
        fst (queryTask c id p) = Throw e).
Proof.
  intros c p resp e Hok Hjson. split; [| split].
  - intros H. rewrite getClothes_run, H, Hok. simpl.
    now rewrite (unwrap_unparseable _ _ p Hjson).
  - intros a Hu Hc H. rewrite submitTask_run, !nonempty_true, H, Hok by assumption. simpl.
    now rewrite (unwrap_unparseable _ _ p Hjson).
  - intros id H. rewrite queryTask_run, H, Hok. simpl.
    now rewrite (unwrap_unparseable _ _ p Hjson).
Qed.

Lemma unparseable_body_passes_through_witness :
  fst (getClothes Scenario.client (garbled 200 (SyntaxError "Unexpected token <")))
    = Throw (SyntaxError "Unexpected token <") /\
  fst (submitTask Scenario.client Scenario.scenario_args
         (garbled 200 (SyntaxError "Unexpected token <")))
    = Throw (SyntaxError "Unexpected token <") /\
  fst (queryTask Scenario.client "t-1" (garbled 200 (SyntaxError "Unexpected token <")))
    = Throw (SyntaxError "Unexpected token <").
Proof.
  pose proof (unparseable_body_passes_through
                Scenario.client (garbled 200 (SyntaxError "Unexpected token <"))
                {| status := 200; json := Throw (SyntaxError "Unexpected token <") |}
                (SyntaxError "Unexpected token <") eq_refl eq_refl)
    as (Hget & Hsubmit & Hquery).
  split; [exact (Hget eq_refl) |].
  split; [| exact (Hquery "t-1" eq_refl)].
  refine (Hsubmit Scenario.scenario_args _ _ eq_refl); discriminate.
Defined.

Lemma unwrap_strict resp fields p :
  json resp = Normal (JObj fields) ->
  own_property fields "code" <> JNum 0 ->
  fst (unwrap resp p) =
  match new_Error (own_property fields "message") with
  | Normal e => Throw e
  | Throw e => Throw e
  end.
Proof.
  intros Hjson Hcode. run. rewrite Hjson. simpl.
  assert (Hs : strict_neq_zero (own_property fields "code") = true).
  { destruct (own_property fields "code"); try reflexivity.
    simpl. destruct (Z.eqb_spec n 0); [subst; contradiction | reflexivity]. }
  rewrite Hs. destruct (new_Error _); reflexivity.
Qed.

(** X4. The success test on the envelope is strict: any code other than the
    number 0 (a missing code, null, the text 0, true, ...) makes each
    method throw, with the envelope's message when that is a string and
    with an empty message when the envelope has none. *)
Theorem only_number_zero_is_success :
  forall (c : HeyBeautyClient) (p : Platform) (resp : HttpResponse)
         (fields : list (string * JsVal)),
    successful resp fields ->
    own_property fields "code" <> JNum 0 ->
    forall text : string,
      (own_property fields "message" = JStr text \/
       (own_property fields "message" = JUndefined /\ text = "")) ->
      (fetch p (getClothes_request c) = Responded resp ->
       fst (getClothes c p) = Throw (Error text)) /\
      (forall a : SubmitTaskArgs,
          user_img_url a <> "" -> cloth_img_url a <> "" ->
          fetch p (submitTask_request c a) = Responded resp ->
          fst (submitTask c a p) = Throw (Error text)) /\
      (forall id : string,
          fetch p (queryTask_request c id) = Responded resp ->
          fst (queryTask c id p) = Throw (Error text)).
Proof.
  intros c p resp fields [Hok Hjson] Hcode text Hmsg.
  assert (Hun : fst (unwrap resp p) = Throw (Error text)).
  { rewrite (unwrap_strict _ _ p Hjson Hcode).
    destruct Hmsg as [-> | [-> ->]]; reflexivity. }
  split; [| split].
  - intros H. now rewrite getClothes_run, H, Hok.
  - intros a Hu Hc H. rewrite submitTask_run, !nonempty_true, H, Hok by assumption.
    simpl. now rewrite Hun.
  - intros id H. rewrite queryTask_run, H, Hok. simpl. now rewrite Hun.
Qed.

Lemma only_number_zero_is_success_witness :
  fst (getClothes Scenario.client
         (Scenario.remote 200 (JObj [("code", JStr "0"); ("message", JStr "ok");
                                     ("data", JArr [])])))
    = Throw (Error "ok") /\
  fst (queryTask Scenario.client "t-1"
         (Scenario.remote 200 (JObj [("data", Scenario.task_record)])))
    = Throw (Error "").
Proof.
  split.
  - refine (proj1 (only_number_zero_is_success
                     Scenario.client
                     (Scenario.remote 200 (JObj [("code", JStr "0"); ("message", JStr "ok");
                                                 ("data", JArr [])]))
                     {| status := 200;
                        json := Normal (JObj [("code", JStr "0"); ("message", JStr "ok");
                                              ("data", JArr [])]) |}
                     [("code", JStr "0"); ("message", JStr "ok"); ("data", JArr [])]
                     _ _ "ok" (or_introl eq_refl)) eq_refl).
    + split; reflexivity.
    + discriminate.
  - refine (proj2 (proj2 (only_number_zero_is_success
                     Scenario.client
                     (Scenario.remote 200 (JObj [("data", Scenario.task_record)]))
                     {| status := 200;
                        json := Normal (JObj [("data", Scenario.task_record)]) |}
                     [("data", Scenario.task_record)]
                     _ _ "" (or_intror (conj eq_refl eq_refl)))) "t-1" eq_refl).
    + split; reflexivity.
    + discriminate.
Defined.

(** X5. getClothes asks for the first page of ten and nothing else: on
    every platform, whatever comes back, its only request is the POST to
    get-clothes with body [{page: 1, limit: 10}]. *)
Theorem getClothes_asks_first_page_once :
  forall (c : HeyBeautyClient) (p : Platform),
    fetches (snd (getClothes c p))
      = [{| url := apiBaseUrl c ++ "/get-clothes";
            method := "POST";
            headers := [("Authorization", "Bearer " ++ apiKey c)];
            body := JObj [("page", JNum 1); ("limit", JNum 10)] |}].
Proof. intros c p. apply getClothes_fetches. Qed.

Lemma client_sends_under c p : sends_under c p (apiBaseUrl c) (apiKey c).
Proof.
  split; [| split].
  - rewrite getClothes_fetches.
    constructor; [apply api_request_getClothes | constructor].
  - intros a. destruct (submitTask_fetches c a p) as [E | E]; rewrite E.
    + constructor.
    + constructor; [apply api_request_submitTask | constructor].
  - intros id. rewrite queryTask_fetches.
    constructor; [apply api_request_queryTask | constructor].
Qed.

(** X6. A client constructed without a base URL, or with an empty one,
    sends every request under https://heybeauty.ai/api; constructed with a
    non-empty base URL it sends every request under that base.  Either way
    the key given to the constructor is the bearer token. *)
Theorem constructor_chooses_base_url :
  forall (key : string) (base : option string) (p : Platform),
    (supplied base = false ->
     sends_under (new_HeyBeautyClient key base) p "https://heybeauty.ai/api" key) /\
    (forall u : string,
        base = Some u -> u <> "" ->
        sends_under (new_HeyBeautyClient key base) p u key).
Proof.
  intros key base p. split.
  - intros H.
    replace "https://heybeauty.ai/api" with (apiBaseUrl (new_HeyBeautyClient key base)).
    + apply (client_sends_under (new_HeyBeautyClient key base) p).
    + destruct base as [u |]; simpl in *; [now rewrite H | reflexivity].
  - intros u -> Hu.
    replace u with (apiBaseUrl (new_HeyBeautyClient key (Some u))) at 2.
    + apply (client_sends_under (new_HeyBeautyClient key (Some u)) p).
    + simpl. now rewrite (nonempty_true _ Hu).
Qed.

Lemma constructor_chooses_base_url_witness :
  sends_under (new_HeyBeautyClient "sk-test" (Some ""))
              (Scenario.remote 200 (Scenario.envelope 0 "success" JNull))
              "https://heybeauty.ai/api" "sk-test" /\
  sends_under (new_HeyBeautyClient "sk-test" (Some "http://localhost:8080/api"))
              (Scenario.remote 200 (Scenario.envelope 0 "success" JNull))
              "http://localhost:8080/api" "sk-test".
Proof.
  split.
  - exact (proj1 (constructor_chooses_base_url
                    "sk-test" (Some "")
                    (Scenario.remote 200 (Scenario.envelope 0 "success" JNull))) eq_refl).
  - refine (proj2 (constructor_chooses_base_url
                     "sk-test" (Some "http://localhost:8080/api")
                     (Scenario.remote 200 (Scenario.envelope 0 "success" JNull)))
              "http://localhost:8080/api" eq_refl _).
    discriminate.
Defined.

(** * Further properties of the handlers *)

Lemma fst_bind_normal {A B} (m : M A) (k : A -> M B) p b :
  fst (bind m k p) = Normal b ->
  exists a, fst (m p) = Normal a /\ fst (k a p) = Normal b.
Proof.
  rewrite fst_bind. destruct (fst (m p)) as [a | e]; [| discriminate].
  intros H. now exists a.
Qed.

Lemma fst_try_catch_inv {A} (m : M A) (h : JsError -> M A) p a :
  (forall e, exists e', fst (h e p) = Throw e') ->
  fst (try_catch m h p) = Normal a -> fst (m p) = Normal a.
Proof.
  intros Hh. unfold try_catch. destruct (m p) as [[a' | e] t]; simpl; [trivial |].
  destruct (Hh e) as (e' & He'). destruct (h e p) as [r t2]. simpl in *. subst r. discriminate.
Qed.

Lemma rethrown p pre e :
  exists e', fst (@throw Response (Error (pre ++ message e)) p) = Throw e'.
Proof. eexists. reflexivity. Qed.

Lemma default_client_sends cfg request p :
  sends_under (new_HeyBeautyClient (resolve_apiKey cfg request) None) p
              "https://heybeauty.ai/api" (resolve_apiKey cfg request).
Proof.
  apply (client_sends_under (new_HeyBeautyClient (resolve_apiKey cfg request) None) p).
Qed.

(** X7. No handler contacts anything but the HeyBeauty API: on every
    platform and for every request (a read-resource request for any URI
    included), each HTTP request of the run is a POST to
    https://heybeauty.ai/api followed by one of the three API paths, with
    the resolved key as bearer token. *)
Theorem handlers_contact_only_the_api :
  forall (cfg : Config) (request : Request) (p : Platform),
    Forall (api_request "https://heybeauty.ai/api" (resolve_apiKey cfg request))
           (fetches (snd (handle cfg request p))).
Proof.
  intros cfg request p.
  destruct (default_client_sends cfg request p) as (Hg & Hs & Hq).
  destruct (handle_trace cfg request p) as [H | [H | [[a H] | [id H]]]]; rewrite H.
  - constructor.
  - exact Hg.
  - apply Hs.
  - apply Hq.
Qed.

Lemma getClothes_logs_nothing c p : logged (snd (getClothes c p)) = [].
Proof.
  rewrite getClothes_run.
  destruct (fetch p _) as [e | resp]; [reflexivity |].
  destruct (ok resp); reflexivity.
Qed.

Lemma queryTask_logs_nothing c id p : logged (snd (queryTask c id p)) = [].
Proof.
  rewrite queryTask_run.
  destruct (fetch p _) as [e | resp]; [reflexivity |].
  destruct (ok resp); reflexivity.
Qed.

Lemma submitTask_logs_its_body c a p :
  logged (snd (submitTask c a p)) = [] \/
  (logged (snd (submitTask c a p)) = [submitTask_body a] /\
   fetches (snd (submitTask c a p)) = [submitTask_request c a]).
Proof.
  rewrite submitTask_run.
  destruct (nonempty (user_img_url a) && nonempty (cloth_img_url a)); [right | now left].
  destruct (fetch p _) as [e | resp]; [split; reflexivity |].
  destruct (ok resp); split; reflexivity.
Qed.

(** X8. The only thing a handler run ever writes to the console is the body
    of the try-on request it sends: every logged value is the body of the
    run's single HTTP request, a POST to mcp-vton.  (The API key travels in
    the Authorization header, which is not logged.) *)
Theorem only_the_submit_body_is_logged :
  forall (cfg : Config) (request : Request) (p : Platform) (v : JsVal),
    In v (logged (snd (handle cfg request p))) ->
    exists req : HttpRequest,
      fetches (snd (handle cfg request p)) = [req] /\
      body req = v /\
      url req = "https://heybeauty.ai/api/mcp-vton".
Proof.
  intros cfg request p v.
  destruct (handle_trace cfg request p) as [H | [H | [[a H] | [id H]]]]; rewrite H.
  - intros [].
  - rewrite getClothes_logs_nothing. intros [].
  - destruct (submitTask_logs_its_body
                (new_HeyBeautyClient (resolve_apiKey cfg request) None) a p)
      as [E | [E F]]; rewrite E.
    + intros [].
    + intros [<- | []]. rewrite F. eexists. repeat split.
  - rewrite queryTask_logs_nothing. intros [].
Qed.

Lemma only_the_submit_body_is_logged_witness :
  exists req : HttpRequest,
    fetches (snd (handle Scenario.with_key
                    (Scenario.request
                       (CallTool "submit_tryon_task"
                          (Some [("user_img_url", JStr "https://x/u.jpg");
                                 ("cloth_img_url", JStr "https://x/c.jpg")])))
                    (Scenario.remote 200
                       (Scenario.envelope 0 "success" Scenario.task_record))))
      = [req] /\
    body req = JObj [("user_img_url", JStr "https://x/u.jpg");
                     ("cloth_img_url", JStr "https://x/c.jpg");
                     ("category", JStr "1"); ("is_sync", JStr "0")] /\
    url req = "https://heybeauty.ai/api/mcp-vton".
Proof.
  apply (only_the_submit_body_is_logged
           Scenario.with_key
           (Scenario.request
              (CallTool "submit_tryon_task"
                 (Some [("user_img_url", JStr "https://x/u.jpg");
                        ("cloth_img_url", JStr "https://x/c.jpg")])))
           (Scenario.remote 200 (Scenario.envelope 0 "success" Scenario.task_record))).
  left. reflexivity.
Defined.

Lemma resource_of_clothe_inv clothe p r :
  fst (resource_of_clothe clothe p) = Normal r -> lists_as clothe r.
Proof.
  unfold resource_of_clothe, lists_as. intros H.
  apply fst_bind_normal in H as (cid & Hcid & H).
  apply fst_bind_normal in H as (id & Hid & H).
  apply fst_bind_normal in H as (title & Htitle & H).
  apply fst_bind_normal in H as (d & Hd & H).
  apply fst_bind_normal in H as (ds & Hds & H).
  unfold lift, ret in *. simpl in *. injection H as <-. simpl.
  assert (Hn : nullish clothe = false) by (destruct clothe; simpl in *; congruence).
  rewrite (Get_field _ _ Hn) in Hcid. rewrite (Get_field _ _ Hn) in Htitle.
  rewrite (Get_field _ _ Hn) in Hd.
  injection Hcid as <-. injection Htitle as <-. injection Hd as <-.
  split; [exact Hn |]. split; [intros _; now exists id |].
  split; [reflexivity |]. split; [reflexivity |]. intros _. exact Hds.
Qed.

Lemma map_items_inv {B} (f : JsVal -> M B) items p rs :
  fst (map_items f items p) = Normal rs ->
  Forall2 (fun x r => fst (f x p) = Normal r) items rs.
Proof.
  revert rs. induction items as [| x rest IH]; intros rs; simpl.
  - intros [= <-]. constructor.
  - intros H. apply fst_bind_normal in H as (y & Hy & H).
    apply fst_bind_normal in H as (ys & Hys & H).
    injection H as <-. constructor; [exact Hy | now apply IH].
Qed.

(** X9. Whenever the list-resources handler succeeds, the remote data was an
    array and the result lists its items one for one, in order: the i-th
    resource has MIME type text/plain and the i-th item's title as name;
    its URI is cloth:/// followed by the text of the item's cloth_id and its
    description is the text of the item's description (the word undefined
    when the item has none), where the text of a safe integer is its plain
    decimal numeral.  Data that is not an array never yields a list. *)
Theorem listed_resources_mirror_the_items :
  forall (cfg : Config) (request : Request) (p : Platform) (result : Response),
    params request = ListResources ->
    fst (handle cfg request p) = Normal result ->
    exists (items : list JsVal) (resources : list Resource),
      fst (getClothes (new_HeyBeautyClient (resolve_apiKey cfg request) None) p)
        = Normal (JArr items) /\
      result = ResourcesResult resources /\
      Forall2 lists_as items resources.
Proof.
  intros cfg request p result Hp. unfold handle. rewrite Hp.
  unfold ListResourcesHandler. intros H.
  apply fst_try_catch_inv in H; [| intros e; apply rethrown].
  destruct (negb (nonempty (resolve_apiKey cfg request))); [discriminate |].
  apply fst_bind_normal in H as (data & Hdata & H).
  apply fst_bind_normal in H as (rs & Hrs & H).
  injection H as <-.
  destruct data; simpl in Hrs; try discriminate.
  exists items, rs. split; [exact Hdata |]. split; [reflexivity |].
  apply map_items_inv in Hrs.
  clear Hdata. induction Hrs as [| x r xs rs' Hx _ IH]; [constructor |].
  constructor; [| exact IH].
  exact (resource_of_clothe_inv x p r Hx).
Qed.

Lemma listed_resources_mirror_the_items_witness :
  exists (items : list JsVal) (resources : list Resource),
    fst (getClothes (new_HeyBeautyClient "sk-test" None)
           (Scenario.remote 200
              (Scenario.envelope 0 "success"
                 (JArr [JObj [("cloth_id", JNum 42); ("title", JStr "Hat")]]))))
      = Normal (JArr items) /\
    ResourcesResult [{| uri := "cloth:///42"; mimeType := "text/plain";
                        name := JStr "Hat"; description := "undefined" |}]
      = ResourcesResult resources /\
    Forall2 lists_as items resources.
Proof.
  apply (listed_resources_mirror_the_items
           Scenario.with_key (Scenario.request ListResources)
           (Scenario.remote 200
              (Scenario.envelope 0 "success"
                 (JArr [JObj [("cloth_id", JNum 42); ("title", JStr "Hat")]])))).
  - reflexivity.
  - reflexivity.
Defined.

(** X10. A read-resource request whose URI the URL parser rejects fails with
    the parser's message behind the read-resource prefix, and no HTTP
    request is issued. *)
Theorem unparseable_uri_is_rejected_offline :
  forall (cfg : Config) (request : Request) (p : Platform) (uri : string) (e : JsError),
    resolve_apiKey cfg request <> "" ->
    params request = ReadResource uri ->
    URL_pathname p uri = Throw e ->
    handle cfg request p = (Throw (Error ("read resource failed: " ++ message e)), []).
Proof.
  intros cfg request p uri e Hk Hp Hurl.
  unfold handle. rewrite Hp. unfold ReadResourceHandler, try_catch.
  rewrite (nonempty_true _ Hk). cbn [negb].
  rewrite bind_silent_l by auto with silent.
  unfold new_URL_pathname. simpl fst. rewrite Hurl. reflexivity.
Qed.

Lemma unparseable_uri_is_rejected_offline_witness :
  handle Scenario.with_key (Scenario.request (ReadResource "c-1"))
         (Scenario.remote 200 (Scenario.envelope 0 "success" (JArr [])))
    = (Throw (Error "read resource failed: Invalid URL"), []).
Proof.
  apply (unparseable_uri_is_rejected_offline
           Scenario.with_key (Scenario.request (ReadResource "c-1"))
           (Scenario.remote 200 (Scenario.envelope 0 "success" (JArr [])))
           "c-1" (TypeError "Invalid URL")).
  - discriminate.
  - reflexivity.
  - reflexivity.
Defined.

Lemma find_item_none items p id :
  Forall valid_cloth items ->
  (forall other, In other items -> cloth_field other "cloth_id" <> Some id) ->
  find_item (clothe_has_id id) items p = (Normal JUndefined, []).
Proof.
  induction 1 as [| x rest Hx Hrest IH]; intros Hnone; [reflexivity |].
  destruct Hx as (idx & _ & _ & _ & Hidx & _).
  simpl. unfold bind. rewrite (clothe_has_id_valid x idx id p Hidx).
  destruct (String.eqb_spec idx id) as [-> | Hne].
  - exfalso. apply (Hnone x); [now left | assumption].
  - rewrite IH; [reflexivity |]. intros other Hin. apply Hnone. now right.
Qed.

(** X11. Reading a URI whose path names no item of the (valid) clothing
    list, the empty list included, fails with Cloth, the id taken from the
    path, and not found, behind the read-resource prefix. *)
Theorem unknown_cloth_is_not_found :
  forall (cfg : Config) (request : Request) (p : Platform) (uri pathname : string)
         (resp : HttpResponse) (fields : list (string * JsVal)) (msg : string)
         (items : list JsVal),
    resolve_apiKey cfg request <> "" ->
    params request = ReadResource uri ->
    URL_pathname p uri = Normal pathname ->
    fetch p (getClothes_request (new_HeyBeautyClient (resolve_apiKey cfg request) None))
      = Responded resp ->
    successful resp fields ->
    envelope_of fields 0 msg (JArr items) ->
    Forall valid_cloth items ->
    (forall other, In other items ->
                   cloth_field other "cloth_id" <> Some (replace_leading_slash pathname)) ->
    fst (handle cfg request p)
      = Throw (Error ("read resource failed: Cloth "
                      ++ replace_leading_slash pathname ++ " not found")).
Proof.
  intros cfg request p uri pathname resp fields msg items
         Hk Hp Hurl Hfetch Hresp Henv Hvalid Hnone.
  pose proof (getClothes_returns_data _ p _ _ _ _ Hfetch Hresp Henv) as Hget.
  unfold handle. rewrite Hp. unfold ReadResourceHandler.
  rewrite (nonempty_true _ Hk). cbn [negb].
  unfold try_catch at 1.
  match goal with
  | |- context [match ?m p with _ => _ end] =>
      assert (Hbody : fst (m p)
                      = Throw (Error ("Cloth " ++ replace_leading_slash pathname
                                      ++ " not found")))
  end.
  { rewrite fst_bind. unfold new_URL_pathname at 1. simpl fst at 1. rewrite Hurl.
    rewrite fst_bind, Hget, fst_bind. simpl Array_find.
    rewrite (find_item_none items p _ Hvalid Hnone). reflexivity. }
  match goal with
  | |- context [match ?m p with _ => _ end] => destruct (m p) as [[r | e] t]
  end; simpl in Hbody; [discriminate |].
  injection Hbody as ->. reflexivity.
Qed.

Lemma unknown_cloth_is_not_found_witness :
  fst (handle Scenario.with_key (Scenario.request (ReadResource "cloth:///c-9"))
         (Scenario.remote 200
            (Scenario.envelope 0 "success"
               (JArr [Scenario.cloth "c-1" "Shirt" "A shirt" "https://x/shirt.jpg"]))))
    = Throw (Error "read resource failed: Cloth c-9 not found").
Proof.
  apply (unknown_cloth_is_not_found
           Scenario.with_key (Scenario.request (ReadResource "cloth:///c-9"))
           (Scenario.remote 200
              (Scenario.envelope 0 "success"
                 (JArr [Scenario.cloth "c-1" "Shirt" "A shirt" "https://x/shirt.jpg"])))
           "cloth:///c-9" "/c-9"
           {| status := 200;
              json := Normal
                (Scenario.envelope 0 "success"
                   (JArr [Scenario.cloth "c-1" "Shirt" "A shirt" "https://x/shirt.jpg"])) |}
           [("code", JNum 0); ("message", JStr "success");
            ("data", JArr [Scenario.cloth "c-1" "Shirt" "A shirt" "https://x/shirt.jpg"])]
           "success"
           [Scenario.cloth "c-1" "Shirt" "A shirt" "https://x/shirt.jpg"]).
  - discriminate.
  - reflexivity.
  - reflexivity.
  - reflexivity.
  - split; reflexivity.
  - repeat split.
  - repeat constructor.
    exists "c-1", "Shirt", "A shirt", "https://x/shirt.jpg". repeat split.
  - intros other [<- | []]. discriminate.
Defined.

(** X12. Whenever the read-resource handler succeeds, its result is a single
    content whose URI is the requested URI, character for character (not the
    parsed or normalised one), with MIME type text/plain. *)
Theorem read_resource_echoes_the_uri :
  forall (cfg : Config) (request : Request) (p : Platform) (uri : string)
         (result : Response),
    params request = ReadResource uri ->
    fst (handle cfg request p) = Normal result ->
    exists img : JsVal,
      result = ContentsResult
                 [{| contents_uri := uri; contents_mimeType := "text/plain";
                     text := img |}].
Proof.
  intros cfg request p uri result Hp. unfold handle. rewrite Hp.
  unfold ReadResourceHandler. intros H.
  apply fst_try_catch_inv in H; [| intros e; apply rethrown].
  destruct (negb (nonempty (resolve_apiKey cfg request))); [discriminate |].
  apply fst_bind_normal in H as (pathname & _ & H).
  apply fst_bind_normal in H as (clothes & _ & H).
  apply fst_bind_normal in H as (cloth & _ & H).
  destruct (negb (ToBoolean cloth)); [discriminate |].
  apply fst_bind_normal in H as (img & _ & H).
  injection H as <-. now exists img.
Qed.

Lemma read_resource_echoes_the_uri_witness :
  exists img : JsVal,
    ContentsResult [{| contents_uri := "cloth:///c-1?size=L";
                       contents_mimeType := "text/plain";
                       text := JStr "https://x/shirt.jpg" |}]
    = ContentsResult [{| contents_uri := "cloth:///c-1?size=L";
                         contents_mimeType := "text/plain";
                         text := img |}].
Proof.
  apply (read_resource_echoes_the_uri
           Scenario.with_key (Scenario.request (ReadResource "cloth:///c-1?size=L"))
           (Scenario.remote 200
              (Scenario.envelope 0 "success"
                 (JArr [Scenario.cloth "c-1" "Shirt" "A shirt" "https://x/shirt.jpg"])))
           "cloth:///c-1?size=L").
  - reflexivity.
  - reflexivity.
Defined.

(** X13. The read-resource handler looks at nothing of the URI but its path:
    two URIs with the same path (another scheme, a host, a query or a
    fragment added) fail with the same error or give the same text, and
    leave the same trace. *)
Theorem read_resource_looks_only_at_the_path :
  forall (cfg : Config) (auth : option string) (p : Platform) (uri1 uri2 : string),
    URL_pathname p uri1 = URL_pathname p uri2 ->
    (forall e : JsError,
        fst (handle cfg {| auth_HEYBEAUTY_API_KEY := auth; params := ReadResource uri1 |} p)
          = Throw e <->
        fst (handle cfg {| auth_HEYBEAUTY_API_KEY := auth; params := ReadResource uri2 |} p)
          = Throw e) /\
    (forall img : JsVal,
        fst (handle cfg {| auth_HEYBEAUTY_API_KEY := auth; params := ReadResource uri1 |} p)
          = Normal (ContentsResult
                      [{| contents_uri := uri1; contents_mimeType := "text/plain";
                          text := img |}]) <->
        fst (handle cfg {| auth_HEYBEAUTY_API_KEY := auth; params := ReadResource uri2 |} p)
          = Normal (ContentsResult
                      [{| contents_uri := uri2; contents_mimeType := "text/plain";
                          text := img |}])) /\
    snd (handle cfg {| auth_HEYBEAUTY_API_KEY := auth; params := ReadResource uri1 |} p)
      = snd (handle cfg {| auth_HEYBEAUTY_API_KEY := auth; params := ReadResource uri2 |} p).
Proof.
  intros cfg auth p uri1 uri2 Hpath.
  unfold handle. cbn [params].
  unfold ReadResourceHandler, try_catch, bind, new_URL_pathname, lift, ret, throw.
  change (resolve_apiKey cfg {| auth_HEYBEAUTY_API_KEY := auth;
                                params := ReadResource uri1 |})
    with (resolve_apiKey cfg {| auth_HEYBEAUTY_API_KEY := auth;
                                params := ReadResource uri2 |}).
  destruct (negb (nonempty _)).
  - simpl. repeat split; intros; congruence.
  - rewrite Hpath. destruct (URL_pathname p uri2) as [pathname | e0].
    + destruct (getClothes _ p) as [[clothes | e1] t1].
      * destruct (Array_find clothes _ p) as [[cloth | e2] t2].
        -- destruct (negb (ToBoolean cloth)).
           ++ simpl. repeat split; intros; congruence.
           ++ destruct (Get cloth "cloth_img_url") as [v | e3]; simpl;
                repeat split; intros; congruence.
        -- simpl. repeat split; intros; congruence.
      * simpl. repeat split; intros; congruence.
    + simpl. repeat split; intros; congruence.
Qed.

Lemma read_resource_looks_only_at_the_path_witness :
  fst (handle Scenario.with_key
         {| auth_HEYBEAUTY_API_KEY := None;
            params := ReadResource "https://example.org/c-1#top" |}
         (Scenario.remote 200
            (Scenario.envelope 0 "success"
               (JArr [Scenario.cloth "c-1" "Shirt" "A shirt" "https://x/shirt.jpg"]))))
    = Normal (ContentsResult
                [{| contents_uri := "https://example.org/c-1#top";
                    contents_mimeType := "text/plain";
                    text := JStr "https://x/shirt.jpg" |}]).
Proof.
  apply (proj1 (proj2 (read_resource_looks_only_at_the_path
                         Scenario.with_key None
                         (Scenario.remote 200
                            (Scenario.envelope 0 "success"
                               (JArr [Scenario.cloth "c-1" "Shirt" "A shirt"
                                        "https://x/shirt.jpg"])))
                         "cloth:///c-1" "https://example.org/c-1#top" eq_refl))
                (JStr "https://x/shirt.jpg")).
  reflexivity.
Defined.

(** ** The tools *)

Lemma ToString_error :
  forall (v : JsVal) (e : JsError),
    ToString v = Throw e -> e = TypeError "Cannot convert object to primitive value".
Proof.
  fix IH 1. intros [| | b | n | s | items | fields] e; simpl; try discriminate.
  - destruct b; intros H; discriminate H.
  - revert e. induction items as [| x rest IHrest]; intros e; [intros H; discriminate H |].
    assert (Hx : forall e', match x with
                            | JUndefined | JNull => Normal ""
                            | _ => ToString x
                            end = Throw e' ->
                            e' = TypeError "Cannot convert object to primitive value").
    { intros e'. pose proof (IH x e') as Hx. destruct x; try discriminate; exact Hx. }
    destruct (match x with JUndefined | JNull => Normal "" | _ => ToString x end)
      as [sx | ex].
    + destruct rest as [| y rest']; [intros H; discriminate H |].
      match goal with
      | |- match ?j with Normal _ => _ | Throw _ => _ end = _ -> _ =>
          remember j as r eqn:E
      end.
      destruct r as [t | et]; intros H; [discriminate H | injection H as <-].
      apply IHrest. reflexivity.
    + intros [= <-]. now apply Hx.
  - destruct (has_own fields "toString"); [| intros H; discriminate H].
    intros [= <-]. reflexivity.
Qed.

Lemma submit_tool_run cfg request p arguments u c i d :
  resolve_apiKey cfg request <> "" ->
  params request = CallTool "submit_tryon_task" arguments ->
  coerced arguments "user_img_url" = Normal u ->
  coerced arguments "cloth_img_url" = Normal c ->
  coerced arguments "cloth_id" = Normal i ->
  coerced arguments "cloth_description" = Normal d ->
  handle cfg request p =
  if nonempty u then
    if nonempty c then
      (match fst (submitTask (new_HeyBeautyClient (resolve_apiKey cfg request) None)
                    {| user_img_url := u; cloth_img_url := c;
                       cloth_id := Some i; cloth_description := Some d |} p) with
       | Normal res =>
           Normal (ToolCallResult
                     [{| content_type := "text"; content_text := JSON_stringify res |}])
       | Throw e => Throw (Error ("call tool failed: " ++ message e))
       end,
       snd (submitTask (new_HeyBeautyClient (resolve_apiKey cfg request) None)
              {| user_img_url := u; cloth_img_url := c;
                 cloth_id := Some i; cloth_description := Some d |} p))
    else (Throw (Error "call tool failed: cloth image is required"), [])
  else (Throw (Error "call tool failed: user image is required"), []).
Proof.
  intros Hk Hp Hu Hc Hi Hd. unfold coerced in *.
  unfold handle. rewrite Hp. unfold CallToolHandler.
  rewrite (nonempty_true _ Hk). cbn [negb]. simpl String.eqb. cbv iota.
  unfold try_catch, bind, lift, throw, ret. rewrite Hu, Hc, Hi, Hd.
  destruct (nonempty u); [| reflexivity].
  destruct (nonempty c); [| reflexivity]. cbn [negb].
  destruct (submitTask _ _ p) as [[res | e] t]; simpl; now rewrite app_nil_r.
Qed.

Lemma query_tool_run cfg request p arguments s :
  resolve_apiKey cfg request <> "" ->
  params request = CallTool "query_tryon_task" arguments ->
  ToString (argument arguments "task_id") = Normal s ->
  handle cfg request p =
  if nonempty s then
    (match fst (queryTask (new_HeyBeautyClient (resolve_apiKey cfg request) None) s p) with
     | Normal res =>
         Normal (ToolCallResult
                   [{| content_type := "text"; content_text := JSON_stringify res |}])
     | Throw e => Throw (Error ("call tool failed: " ++ message e))
     end,
     snd (queryTask (new_HeyBeautyClient (resolve_apiKey cfg request) None) s p))
  else (Throw (Error "call tool failed: task id is required"), []).
Proof.
  intros Hk Hp Hs.
  unfold handle. rewrite Hp. unfold CallToolHandler.
  rewrite (nonempty_true _ Hk). cbn [negb]. simpl String.eqb. cbv iota.
  unfold try_catch, bind, lift, throw, ret. rewrite Hs.
  destruct (nonempty s); [| reflexivity]. cbn [negb].
  destruct (queryTask _ _ p) as [[res | e] t]; simpl; now rewrite app_nil_r.
Qed.

Lemma submit_tool_conversion_fails cfg request p arguments e :
  resolve_apiKey cfg request <> "" ->
  params request = CallTool "submit_tryon_task" arguments ->
  coerced arguments "user_img_url" = Throw e \/
  (exists u, coerced arguments "user_img_url" = Normal u /\
             coerced arguments "cloth_img_url" = Throw e) \/
  (exists u c, coerced arguments "user_img_url" = Normal u /\
               coerced arguments "cloth_img_url" = Normal c /\
               coerced arguments "cloth_id" = Throw e) \/
  (exists u c i, coerced arguments "user_img_url" = Normal u /\
                 coerced arguments "cloth_img_url" = Normal c /\
                 coerced arguments "cloth_id" = Normal i /\
                 coerced arguments "cloth_description" = Throw e) ->
  handle cfg request p
    = (Throw (Error "call tool failed: Cannot convert object to primitive value"), []).
Proof.
  intros Hk Hp H. unfold coerced in H.
  unfold handle. rewrite Hp. unfold CallToolHandler.
  rewrite (nonempty_true _ Hk). cbn [negb]. simpl String.eqb. cbv iota.
  unfold try_catch, bind, lift, throw, ret.
  destruct H as [Hu | [(u & Hu & Hc) | [(u & c & Hu & Hc & Hi) | (u & c & i & Hu & Hc & Hi & Hd)]]].
  - rewrite Hu. apply ToString_error in Hu. subst e. reflexivity.
  - rewrite Hu, Hc. apply ToString_error in Hc. subst e. reflexivity.
  - rewrite Hu, Hc, Hi. apply ToString_error in Hi. subst e. reflexivity.
  - rewrite Hu, Hc, Hi, Hd. apply ToString_error in Hd. subst e. reflexivity.
Qed.

(** X14. The submit tool turns its four arguments into strings first and
    then checks the two images, all before any request.  When one of the
    arguments cannot be turned into a string (an object with a toString
    property of its own) the call fails with Cannot convert object to
    primitive value; otherwise an absent, empty or otherwise falsy
    user_img_url fails with user image is required, and with a user image
    present an absent or empty cloth_img_url fails with cloth image is
    required.  Each of these failures is behind the call-tool prefix, with
    nothing sent or logged. *)
Theorem submit_tool_requires_both_images :
  forall (cfg : Config) (request : Request) (p : Platform)
         (arguments : option (list (string * JsVal))),
    resolve_apiKey cfg request <> "" ->
    params request = CallTool "submit_tryon_task" arguments ->
    (forall u c i d : string,
        coerced arguments "user_img_url" = Normal u ->
        coerced arguments "cloth_img_url" = Normal c ->
        coerced arguments "cloth_id" = Normal i ->
        coerced arguments "cloth_description" = Normal d ->
        (u = "" ->
         handle cfg request p
           = (Throw (Error "call tool failed: user image is required"), [])) /\
        (u <> "" -> c = "" ->
         handle cfg request p
           = (Throw (Error "call tool failed: cloth image is required"), []))) /\
    (forall e : JsError,
        coerced arguments "user_img_url" = Throw e \/
        (exists u, coerced arguments "user_img_url" = Normal u /\
                   coerced arguments "cloth_img_url" = Throw e) \/
        (exists u c, coerced arguments "user_img_url" = Normal u /\
                     coerced arguments "cloth_img_url" = Normal c /\
                     coerced arguments "cloth_id" = Throw e) \/
        (exists u c i, coerced arguments "user_img_url" = Normal u /\
                       coerced arguments "cloth_img_url" = Normal c /\
                       coerced arguments "cloth_id" = Normal i /\
                       coerced arguments "cloth_description" = Throw e) ->
        handle cfg request p
          = (Throw (Error "call tool failed: Cannot convert object to primitive value"),
             [])) /\
    (ToBoolean (argument arguments "user_img_url") = false \/
     ToBoolean (argument arguments "cloth_img_url") = false ->
     snd (handle cfg request p) = [] /\
     exists cause : string,
       fst (handle cfg request p) = Throw (Error ("call tool failed: " ++ cause))).
Proof.
  intros cfg request p arguments Hk Hp. split; [| split].
  - intros u c i d Hu Hc Hi Hd.
    rewrite (submit_tool_run _ _ p _ _ _ _ _ Hk Hp Hu Hc Hi Hd). split.
    + intros ->. reflexivity.
    + intros Hne ->. now rewrite (nonempty_true _ Hne).
  - intros e. apply submit_tool_conversion_fails; assumption.
  - intros Hfalsy.
    destruct (coerced arguments "user_img_url") as [u | e] eqn:Hu.
    2:{ rewrite (submit_tool_conversion_fails cfg request p arguments e Hk Hp) by auto.
        split; [reflexivity | eexists; reflexivity]. }
    destruct (coerced arguments "cloth_img_url") as [c | e] eqn:Hc.
    2:{ rewrite (submit_tool_conversion_fails cfg request p arguments e Hk Hp)
          by (right; left; exists u; auto).
        split; [reflexivity | eexists; reflexivity]. }
    destruct (coerced arguments "cloth_id") as [i | e] eqn:Hi.
    2:{ rewrite (submit_tool_conversion_fails cfg request p arguments e Hk Hp)
          by (right; right; left; exists u, c; auto).
        split; [reflexivity | eexists; reflexivity]. }
    destruct (coerced arguments "cloth_description") as [d | e] eqn:Hd.
    2:{ rewrite (submit_tool_conversion_fails cfg request p arguments e Hk Hp)
          by (right; right; right; exists u, c, i; auto).
        split; [reflexivity | eexists; reflexivity]. }
    rewrite (submit_tool_run _ _ p _ _ _ _ _ Hk Hp Hu Hc Hi Hd).
    assert (Hempty : u = "" \/ c = "").
    { unfold coerced, or_else in Hu, Hc.
      destruct Hfalsy as [Hf | Hf]; rewrite Hf in *; [left | right]; simpl in *; congruence. }
    unfold nonempty.
    destruct (String.eqb_spec u ""); simpl.
    + split; [reflexivity | eexists; reflexivity].
    + destruct Hempty as [-> | ->]; [contradiction |]. simpl.
      split; [reflexivity | eexists; reflexivity].
Qed.

Lemma submit_tool_requires_both_images_witness :
  handle Scenario.with_key
         (Scenario.request
            (CallTool "submit_tryon_task" (Some [("cloth_img_url", JStr "https://x/c.jpg")])))
         (Scenario.remote 200 (Scenario.envelope 0 "success" Scenario.task_record))
    = (Throw (Error "call tool failed: user image is required"), []) /\
  handle Scenario.with_key
         (Scenario.request
            (CallTool "submit_tryon_task"
               (Some [("user_img_url", JStr "https://x/u.jpg"); ("cloth_img_url", JNull)])))
         (Scenario.remote 200 (Scenario.envelope 0 "success" Scenario.task_record))
    = (Throw (Error "call tool failed: cloth image is required"), []) /\
  handle Scenario.with_key
         (Scenario.request
            (CallTool "submit_tryon_task"
               (Some [("cloth_id", JObj [("toString", JNum 1)])])))
         (Scenario.remote 200 (Scenario.envelope 0 "success" Scenario.task_record))
    = (Throw (Error "call tool failed: Cannot convert object to primitive value"), []).
Proof.
  split; [| split].
  - refine (proj1 (proj1 (submit_tool_requires_both_images
                     Scenario.with_key
                     (Scenario.request
                        (CallTool "submit_tryon_task"
                           (Some [("cloth_img_url", JStr "https://x/c.jpg")])))
                     (Scenario.remote 200 (Scenario.envelope 0 "success" Scenario.task_record))
                     (Some [("cloth_img_url", JStr "https://x/c.jpg")])
                     _ eq_refl)
                     "" "https://x/c.jpg" "" "" eq_refl eq_refl eq_refl eq_refl)
              eq_refl).
    discriminate.
  - refine (proj2 (proj1 (submit_tool_requires_both_images
                     Scenario.with_key
                     (Scenario.request
                        (CallTool "submit_tryon_task"
                           (Some [("user_img_url", JStr "https://x/u.jpg");
                                  ("cloth_img_url", JNull)])))
                     (Scenario.remote 200 (Scenario.envelope 0 "success" Scenario.task_record))
                     (Some [("user_img_url", JStr "https://x/u.jpg");
                            ("cloth_img_url", JNull)])
                     _ eq_refl)
                     "https://x/u.jpg" "" "" "" eq_refl eq_refl eq_refl eq_refl)
              _ eq_refl).
    + discriminate.
    + discriminate.
  - refine (proj1 (proj2 (submit_tool_requires_both_images
                     Scenario.with_key
                     (Scenario.request
                        (CallTool "submit_tryon_task"
                           (Some [("cloth_id", JObj [("toString", JNum 1)])])))
                     (Scenario.remote 200 (Scenario.envelope 0 "success" Scenario.task_record))
                     (Some [("cloth_id", JObj [("toString", JNum 1)])])
                     _ eq_refl))
              (TypeError "Cannot convert object to primitive value") _).
    + discriminate.
    + right. right. left. exists "", "". repeat split.
Defined.

(** X15. With both images present, the submit tool is the client's
    submitTask and nothing more: it passes the four stringified arguments
    on (absent optional ones as empty strings, which submitTask leaves out
    of the body), performs exactly submitTask's effects, returns
    submitTask's result as the JSON text of one text content, and turns
    submitTask's error into call tool failed: followed by its message.
    Stated for arguments whose text involves no number beyond the safe
    integers. *)
Theorem submit_tool_is_submitTask :
  forall (cfg : Config) (request : Request) (p : Platform)
         (arguments : option (list (string * JsVal))) (u c i d : string),
    resolve_apiKey cfg request <> "" ->
    params request = CallTool "submit_tryon_task" arguments ->
    coerced arguments "user_img_url" = Normal u ->
    coerced arguments "cloth_img_url" = Normal c ->
    coerced arguments "cloth_id" = Normal i ->
    coerced arguments "cloth_description" = Normal d ->
    printable (argument arguments "user_img_url") = true ->
    printable (argument arguments "cloth_img_url") = true ->
    printable (argument arguments "cloth_id") = true ->
    printable (argument arguments "cloth_description") = true ->
    u <> "" -> c <> "" ->
    snd (handle cfg request p)
      = snd (submitTask (new_HeyBeautyClient (resolve_apiKey cfg request) None)
               {| user_img_url := u; cloth_img_url := c;
                  cloth_id := Some i; cloth_description := Some d |} p) /\
    (forall res : TryOnTask,
        fst (submitTask (new_HeyBeautyClient (resolve_apiKey cfg request) None)
               {| user_img_url := u; cloth_img_url := c;
                  cloth_id := Some i; cloth_description := Some d |} p) = Normal res ->
        fst (handle cfg request p)
          = Normal (ToolCallResult
                      [{| content_type := "text"; content_text := JSON_stringify res |}])) /\
    (forall e : JsError,
        fst (submitTask (new_HeyBeautyClient (resolve_apiKey cfg request) None)
               {| user_img_url := u; cloth_img_url := c;
                  cloth_id := Some i; cloth_description := Some d |} p) = Throw e ->
        fst (handle cfg request p) = Throw (Error ("call tool failed: " ++ message e))).
Proof.
  intros cfg request p arguments u c i d Hk Hp Hu Hc Hi Hd _ _ _ _ Hune Hcne.
  rewrite (submit_tool_run _ _ p _ _ _ _ _ Hk Hp Hu Hc Hi Hd).
  rewrite (nonempty_true _ Hune), (nonempty_true _ Hcne). simpl.
  split; [reflexivity |]. split; intros x Hx; now rewrite Hx.
Qed.

Lemma submit_tool_is_submitTask_witness :
  fetches (snd (handle Scenario.with_key
                  (Scenario.request
                     (CallTool "submit_tryon_task"
                        (Some [("user_img_url", JStr "https://x/u.jpg");
                               ("cloth_img_url", JStr "https://x/c.jpg");
                               ("cloth_id", JNum 7)])))
                  (Scenario.remote 200
                     (Scenario.envelope 0 "success" Scenario.task_record))))
    = [{| url := "https://heybeauty.ai/api/mcp-vton";
          method := "POST";
          headers := [("Authorization", "Bearer sk-test")];
          body := JObj [("user_img_url", JStr "https://x/u.jpg");
                        ("cloth_img_url", JStr "https://x/c.jpg");
                        ("category", JStr "1"); ("is_sync", JStr "0");
                        ("cloth_id", JStr "7")] |}].
Proof.
  rewrite (proj1 (submit_tool_is_submitTask
                    Scenario.with_key
                    (Scenario.request
                       (CallTool "submit_tryon_task"
                          (Some [("user_img_url", JStr "https://x/u.jpg");
                                 ("cloth_img_url", JStr "https://x/c.jpg");
                                 ("cloth_id", JNum 7)])))
                    (Scenario.remote 200 (Scenario.envelope 0 "success" Scenario.task_record))
                    (Some [("user_img_url", JStr "https://x/u.jpg");
                           ("cloth_img_url", JStr "https://x/c.jpg");
                           ("cloth_id", JNum 7)])
                    "https://x/u.jpg" "https://x/c.jpg" "7" ""
                    ltac:(discriminate) eq_refl eq_refl eq_refl eq_refl eq_refl
                    eq_refl eq_refl eq_refl eq_refl
                    ltac:(discriminate) ltac:(discriminate))).
  reflexivity.
Defined.

(** X16. The query tool is the client's queryTask on the stringified
    task_id: whenever that text is not empty (a safe integer is sent as its
    plain decimal numeral) the run performs exactly queryTask's effects for
    that text, returns its result as the JSON text of one text content, and
    turns its error into call tool failed: followed by its message.  Stated
    for a task_id whose text involves no number beyond the safe integers. *)
Theorem query_tool_is_queryTask :
  forall (cfg : Config) (request : Request) (p : Platform)
         (arguments : option (list (string * JsVal))) (s : string),
    resolve_apiKey cfg request <> "" ->
    params request = CallTool "query_tryon_task" arguments ->
    ToString (argument arguments "task_id") = Normal s ->
    printable (argument arguments "task_id") = true ->
    s <> "" ->
    snd (handle cfg request p)
      = snd (queryTask (new_HeyBeautyClient (resolve_apiKey cfg request) None) s p) /\
    (forall res : TryOnTask,
        fst (queryTask (new_HeyBeautyClient (resolve_apiKey cfg request) None) s p)
          = Normal res ->
        fst (handle cfg request p)
          = Normal (ToolCallResult
                      [{| content_type := "text"; content_text := JSON_stringify res |}])) /\
    (forall e : JsError,
        fst (queryTask (new_HeyBeautyClient (resolve_apiKey cfg request) None) s p)
          = Throw e ->
        fst (handle cfg request p) = Throw (Error ("call tool failed: " ++ message e))).
Proof.
  intros cfg request p arguments s Hk Hp Hs _ Hne.
  rewrite (query_tool_run _ _ p _ _ Hk Hp Hs), (nonempty_true _ Hne). simpl.
  split; [reflexivity |]. split; intros x Hx; now rewrite Hx.
Qed.

Lemma query_tool_is_queryTask_witness :
  fst (handle Scenario.with_key
         (Scenario.request (CallTool "query_tryon_task" (Some [("task_id", JNum 42)])))
         (Scenario.remote 200 (Scenario.envelope 3 "task not found" JNull)))
    = Throw (Error "call tool failed: task not found").
Proof.
  apply (proj2 (proj2 (query_tool_is_queryTask
                         Scenario.with_key
                         (Scenario.request
                            (CallTool "query_tryon_task" (Some [("task_id", JNum 42)])))
                         (Scenario.remote 200 (Scenario.envelope 3 "task not found" JNull))
                         (Some [("task_id", JNum 42)]) "42"
                         ltac:(discriminate) eq_refl eq_refl eq_refl ltac:(discriminate)))
           (Error "task not found")).
  reflexivity.
Defined.

Lemma unknown_tool_run cfg request p name arguments :
  resolve_apiKey cfg request <> "" ->
  params request = CallTool name arguments ->
  name <> "submit_tryon_task" -> name <> "query_tryon_task" ->
  handle cfg request p = (Throw (Error "call tool failed: Unknown tool"), []).
Proof.
  intros Hk Hp Hs Hq. unfold handle. rewrite Hp. unfold CallToolHandler, try_catch.
  rewrite (nonempty_true _ Hk). cbn [negb].
  destruct (String.eqb_spec name "submit_tryon_task"); [contradiction |].
  destruct (String.eqb_spec name "query_tryon_task"); [contradiction |].
  reflexivity.
Qed.

Lemma submit_tool_is_known cfg request p arguments :
  resolve_apiKey cfg request <> "" ->
  params request = CallTool "submit_tryon_task" arguments ->
  handle cfg request p <> (Throw (Error "call tool failed: Unknown tool"), []).
Proof.
  intros Hk Hp. unfold handle. rewrite Hp. unfold CallToolHandler.
  rewrite (nonempty_true _ Hk). cbn [negb]. simpl String.eqb. cbv iota.
  unfold try_catch, bind, lift, throw, ret.
  destruct (ToString (or_else (argument arguments "user_img_url") _)) as [u | e] eqn:Eu;
    [| apply ToString_error in Eu; subst e; intros H; discriminate H].
  destruct (ToString (or_else (argument arguments "cloth_img_url") _)) as [c | e] eqn:Ec;
    [| apply ToString_error in Ec; subst e; intros H; discriminate H].
  destruct (ToString (or_else (argument arguments "cloth_id") _)) as [i | e] eqn:Ei;
    [| apply ToString_error in Ei; subst e; intros H; discriminate H].
  destruct (ToString (or_else (argument arguments "cloth_description") _)) as [d | e] eqn:Ed;
    [| apply ToString_error in Ed; subst e; intros H; discriminate H].
  destruct (nonempty u) eqn:Enu; [| intros H; discriminate H].
  destruct (nonempty c) eqn:Enc; [| intros H; discriminate H].
  cbn [negb]. rewrite submitTask_run. cbn [user_img_url cloth_img_url].
  rewrite Enu, Enc. cbn [andb].
  destruct (fetch p _) as [e | resp]; [intros H; discriminate H |].
  destruct (ok resp); [| intros H; discriminate H].
  destruct (match fst (unwrap resp p) with Normal _ => _ | Throw _ => _ end);
    intros H; discriminate H.
Qed.

Lemma query_tool_is_known cfg request p arguments :
  resolve_apiKey cfg request <> "" ->
  params request = CallTool "query_tryon_task" arguments ->
  handle cfg request p <> (Throw (Error "call tool failed: Unknown tool"), []).
Proof.
  intros Hk Hp. unfold handle. rewrite Hp. unfold CallToolHandler.
  rewrite (nonempty_true _ Hk). cbn [negb]. simpl String.eqb. cbv iota.
  unfold try_catch, bind, lift, throw, ret.
  destruct (ToString (argument arguments "task_id")) as [s | e] eqn:Es;
    [| apply ToString_error in Es; subst e; intros H; discriminate H].
  destruct (nonempty s) eqn:Ens; [| intros H; discriminate H].
  cbn [negb]. rewrite queryTask_run.
  destruct (fetch p _) as [e | resp]; [intros H; discriminate H |].
  destruct (ok resp); [| intros H; discriminate H].
  destruct (match fst (unwrap resp p) with Normal _ => _ | Throw _ => _ end);
    intros H; discriminate H.
Qed.

(** X17. The tools that list-tools advertises are exactly the ones
    call-tool dispatches: with a key present, a call fails with Unknown
    tool (behind the call-tool prefix, nothing sent) if and only if its
    name is not the name of a listed tool. *)
Theorem listed_tools_are_the_callable_ones :
  forall (cfg : Config) (request listing : Request) (p : Platform)
         (name : string) (arguments : option (list (string * JsVal)))
         (tools : list Tool),
    resolve_apiKey cfg request <> "" ->
    params request = CallTool name arguments ->
    params listing = ListTools ->
    fst (handle cfg listing p) = Normal (ToolsResult tools) ->
    (~ In name (map tool_name tools) <->
     handle cfg request p = (Throw (Error "call tool failed: Unknown tool"), [])).
Proof.
  intros cfg request listing p name arguments tools Hk Hp Hl.
  unfold handle at 1. rewrite Hl. intros [= <-]. simpl map. split.
  - intros Hnot. apply (unknown_tool_run cfg request p name arguments Hk Hp).
    + intros ->. apply Hnot. now left.
    + intros ->. apply Hnot. right. now left.
  - intros Hrun [<- | [<- | []]].
    + exact (submit_tool_is_known cfg request p arguments Hk Hp Hrun).
    + exact (query_tool_is_known cfg request p arguments Hk Hp Hrun).
Qed.

Lemma listed_tools_are_the_callable_ones_witness :
  handle Scenario.with_key (Scenario.request (CallTool "cancel_tryon_task" None))
         (Scenario.remote 200 (Scenario.envelope 0 "success" JNull))
    = (Throw (Error "call tool failed: Unknown tool"), []).
Proof.
  apply (proj1 (listed_tools_are_the_callable_ones
                  Scenario.with_key
                  (Scenario.request (CallTool "cancel_tryon_task" None))
                  (Scenario.request ListTools)
                  (Scenario.remote 200 (Scenario.envelope 0 "success" JNull))
                  "cancel_tryon_task" None static_tools
                  ltac:(discriminate) eq_refl eq_refl eq_refl)).
  intros [H | [H | []]]; discriminate H.
Defined.

(** X18. The prompts that list-prompts advertises are exactly the ones
    get-prompt serves: get-prompt succeeds if and only if the name is that
    of a listed prompt, and every success is one user message of type
    text. *)
Theorem listed_prompts_are_the_served_ones :
  forall (cfg : Config) (request listing : Request) (p : Platform)
         (name : string) (prompts : list Prompt),
    params request = GetPrompt name ->
    params listing = ListPrompts ->
    fst (handle cfg listing p) = Normal (PromptsResult prompts) ->
    (In name (map prompt_name prompts) <->
     exists text : string,
       handle cfg request p
         = (Normal (MessagesResult
                      [{| role := "user"; message_type := "text"; message_text := text |}]),
            [])) /\
    (~ In name (map prompt_name prompts) <->
     handle cfg request p = (Throw (Error "Unknown prompt"), [])).
Proof.
  intros cfg request listing p name prompts Hp Hl.
  unfold handle at 1. rewrite Hl. intros [= <-]. simpl map.
  unfold handle. rewrite Hp. unfold GetPromptHandler.
  destruct (String.eqb_spec name "tryon_cloth") as [-> | Hne]; simpl; split; split.
  - intros _. eexists. reflexivity.
  - intros _. now left.
  - intros Hnot. exfalso. apply Hnot. now left.
  - intros H. discriminate H.
  - intros [<- | []]. contradiction.
  - intros (text & H). discriminate H.
  - reflexivity.
  - intros _ [<- | []]. contradiction.
Qed.

Lemma listed_prompts_are_the_served_ones_witness :
  handle Scenario.no_key (Scenario.request (GetPrompt "tryon_clothes"))
         (Scenario.remote 200 (Scenario.envelope 0 "success" JNull))
    = (Throw (Error "Unknown prompt"), []).
Proof.
  apply (proj1 (proj2 (listed_prompts_are_the_served_ones
                         Scenario.no_key
                         (Scenario.request (GetPrompt "tryon_clothes"))
                         (Scenario.request ListPrompts)
                         (Scenario.remote 200 (Scenario.envelope 0 "success" JNull))
                         "tryon_clothes"
                         [{| prompt_name := "tryon_cloth";
                             prompt_description := "Tryon with user image and cloth image" |}]
                         eq_refl eq_refl eq_refl))).
  intros [H | []]. discriminate H.
Defined.

(** * Start-up *)

Lemma mode_is_rest (ps : Startup.Params) :
  (Startup.mode ps =? "rest")%string = true <-> Startup.param_mode ps = Some "rest".
Proof.
  unfold Startup.mode, Startup.param_or.
  destruct (Startup.param_mode ps) as [s |]; [| split; discriminate].
  unfold nonempty. destruct (String.eqb_spec s "") as [-> | Hne]; simpl.
  - split; discriminate.
  - destruct (String.eqb_spec s "rest") as [-> | Hr]; split; try reflexivity; try discriminate.
    intros [= ->]. contradiction.
Qed.

(** X19. [main] connects exactly one transport, and which one is decided by
    the mode parameter alone: the REST transport when the parameter is
    exactly rest, the standard-stream transport for every other value and
    when it is absent.  The REST transport gets the port and endpoint
    parameters, and 9593 and /rest in place of an absent or empty one. *)
Theorem main_chooses_the_transport :
  forall (ps : Startup.Params) (rt : Startup.Runtime),
    (Startup.param_mode ps <> Some "rest" ->
     exists rest,
       Startup.start ps rt = Startup.EvConnect Startup.StdioServerTransport :: rest /\
       forall t, ~ In (Startup.EvConnect t) rest) /\
    (Startup.param_mode ps = Some "rest" ->
     exists prt ep rest,
       Startup.start ps rt
         = Startup.EvConnect (Startup.RestServerTransport prt ep) :: rest /\
       (forall t, ~ In (Startup.EvConnect t) rest) /\
       (supplied (Startup.param_port ps) = false -> prt = JNum 9593) /\
       (forall s, Startup.param_port ps = Some s -> s <> "" -> prt = JStr s) /\
       (supplied (Startup.param_endpoint ps) = false -> ep = "/rest") /\
       (forall s, Startup.param_endpoint ps = Some s -> s <> "" -> ep = s)).
Proof.
  intros ps rt. unfold Startup.start, Startup.main. split.
  - intros Hmode.
    destruct (Startup.mode ps =? "rest")%string eqn:E;
      [apply mode_is_rest in E; contradiction |].
    destruct (Startup.connect rt _); eexists; (split; [reflexivity |]);
      intros t; simpl; intuition discriminate.
  - intros Hmode. apply mode_is_rest in Hmode. rewrite Hmode.
    exists (Startup.port ps), (Startup.endpoint ps).
    assert (Hrest : exists rest,
               match
                 match Startup.connect rt
                         (Startup.RestServerTransport (Startup.port ps) (Startup.endpoint ps)) with
                 | Some e =>
                     (Throw e,
                      [Startup.EvConnect
                         (Startup.RestServerTransport (Startup.port ps) (Startup.endpoint ps))])
                 | None =>
                     match Startup.startServer rt
                             (Startup.RestServerTransport (Startup.port ps)
                                (Startup.endpoint ps)) with
                     | Some e =>
                         (Throw e,
                          [Startup.EvConnect
                             (Startup.RestServerTransport (Startup.port ps)
                                (Startup.endpoint ps));
                           Startup.EvStartServer
                             (Startup.RestServerTransport (Startup.port ps)
                                (Startup.endpoint ps))])
                     | None =>
                         (Normal tt,
                          [Startup.EvConnect
                             (Startup.RestServerTransport (Startup.port ps)
                                (Startup.endpoint ps));
                           Startup.EvStartServer
                             (Startup.RestServerTransport (Startup.port ps)
                                (Startup.endpoint ps))])
                     end
                 end
               with
               | (Normal _, t) => t
               | (Throw e, t) =>
                   (t ++ [Startup.EvConsoleError "Server error:" e; Startup.EvExit 1])%list
               end
               = Startup.EvConnect
                   (Startup.RestServerTransport (Startup.port ps) (Startup.endpoint ps))
                 :: rest /\
               forall t, ~ In (Startup.EvConnect t) rest).
    { destruct (Startup.connect rt _); [| destruct (Startup.startServer rt _)];
        eexists; (split; [reflexivity |]); intros t; simpl; intuition discriminate. }
    destruct Hrest as (rest & Hstart & Hno).
    exists rest. split; [exact Hstart |]. split; [exact Hno |].
    unfold Startup.port, Startup.endpoint, Startup.param_or. repeat split.
    + intros H. destruct (Startup.param_port ps) as [s |]; simpl in H; [now rewrite H | reflexivity].
    + intros s -> Hs. now rewrite (nonempty_true _ Hs).
    + intros H. destruct (Startup.param_endpoint ps) as [s |]; simpl in H;
        [now rewrite H | reflexivity].
    + intros s -> Hs. now rewrite (nonempty_true _ Hs).
Qed.

Lemma main_chooses_the_transport_witness :
  (exists rest,
      Startup.start {| Startup.param_mode := Some "REST";
                       Startup.param_port := Some "8080";
                       Startup.param_endpoint := None |}
                    {| Startup.connect := fun _ => None;
                       Startup.startServer := fun _ => None |}
        = Startup.EvConnect Startup.StdioServerTransport :: rest /\
      forall t, ~ In (Startup.EvConnect t) rest) /\
  (exists prt ep rest,
      Startup.start {| Startup.param_mode := Some "rest";
                       Startup.param_port := Some "8080";
                       Startup.param_endpoint := None |}
                    {| Startup.connect := fun _ => None;
                       Startup.startServer := fun _ => None |}
        = Startup.EvConnect (Startup.RestServerTransport prt ep) :: rest /\
      prt = JStr "8080" /\ ep = "/rest").
Proof.
  split.
  - refine (proj1 (main_chooses_the_transport
                     {| Startup.param_mode := Some "REST";
                        Startup.param_port := Some "8080";
                        Startup.param_endpoint := None |}
                     {| Startup.connect := fun _ => None;
                        Startup.startServer := fun _ => None |}) _).
    discriminate.
  - destruct (proj2 (main_chooses_the_transport
                       {| Startup.param_mode := Some "rest";
                          Startup.param_port := Some "8080";
                          Startup.param_endpoint := None |}
                       {| Startup.connect := fun _ => None;
                          Startup.startServer := fun _ => None |}) eq_refl)
      as (prt & ep & rest & Hstart & _ & _ & Hport & Hep & _).
    exists prt, ep, rest. split; [exact Hstart |]. split.
    + apply (Hport "8080" eq_refl). discriminate.
    + apply Hep. reflexivity.
Defined.

(** X20. The process exits only on a start-up failure and then with status
    1: when connecting or starting the transport rejects, the error is
    written to the console under Server error: and exit status 1 follows as
    the last event; no other run exits.  The server is started only in rest
    mode and only after connecting succeeded. *)
Theorem startup_failure_exits_with_status_1 :
  forall (ps : Startup.Params) (rt : Startup.Runtime),
    (forall e : JsError,
        fst (Startup.main ps rt) = Throw e ->
        exists before,
          Startup.start ps rt
            = (before ++ [Startup.EvConsoleError "Server error:" e; Startup.EvExit 1])%list) /\
    (forall code : Z,
        In (Startup.EvExit code) (Startup.start ps rt) ->
        code = 1 /\ exists e, fst (Startup.main ps rt) = Throw e) /\
    (forall t : Startup.Transport,
        In (Startup.EvStartServer t) (Startup.start ps rt) ->
        Startup.connect rt t = None /\ Startup.param_mode ps = Some "rest").
Proof.
  intros ps rt. unfold Startup.start, Startup.main.
  destruct (Startup.mode ps =? "rest")%string eqn:E.
  - apply mode_is_rest in E.
    destruct (Startup.connect rt _) as [e1 |] eqn:Ec;
      [| destruct (Startup.startServer rt _) as [e2 |] eqn:Es]; simpl;
      (split; [| split]).
    + intros e [= <-]. now exists [Startup.EvConnect
                                     (Startup.RestServerTransport (Startup.port ps)
                                        (Startup.endpoint ps))].
    + intros code [H | [H | [H | []]]]; try discriminate H.
      injection H as <-. split; [reflexivity | now exists e1].
    + intros t [H | [H | [H | []]]]; discriminate H.
    + intros e [= <-].
      now exists [Startup.EvConnect
                    (Startup.RestServerTransport (Startup.port ps) (Startup.endpoint ps));
                  Startup.EvStartServer
                    (Startup.RestServerTransport (Startup.port ps) (Startup.endpoint ps))].
    + intros code [H | [H | [H | [H | []]]]]; try discriminate H.
      injection H as <-. split; [reflexivity | now exists e2].
    + intros t [H | [H | [H | [H | []]]]]; try discriminate H.
      injection H as <-. split; assumption.
    + intros e H. discriminate H.
    + intros code [H | [H | []]]; discriminate H.
    + intros t [H | [H | []]]; try discriminate H.
      injection H as <-. split; assumption.
  - destruct (Startup.connect rt _) as [e1 |] eqn:Ec; simpl; (split; [| split]).
    + intros e [= <-]. now exists [Startup.EvConnect Startup.StdioServerTransport].
    + intros code [H | [H | [H | []]]]; try discriminate H.
      injection H as <-. split; [reflexivity | now exists e1].
    + intros t [H | [H | [H | []]]]; discriminate H.
    + intros e H. discriminate H.
    + intros code [H | []]; discriminate H.
    + intros t [H | []]; discriminate H.
Qed.

Lemma startup_failure_exits_with_status_1_witness :
  exists before,
    Startup.start {| Startup.param_mode := Some "rest";
                     Startup.param_port := None;
                     Startup.param_endpoint := None |}
                  {| Startup.connect := fun _ => None;
                     Startup.startServer := fun _ => Some (Error "listen EADDRINUSE") |}
      = (before ++ [Startup.EvConsoleError "Server error:" (Error "listen EADDRINUSE");
                    Startup.EvExit 1])%list.
Proof.
  apply (proj1 (startup_failure_exits_with_status_1
                  {| Startup.param_mode := Some "rest";
                     Startup.param_port := None;
                     Startup.param_endpoint := None |}
                  {| Startup.connect := fun _ => None;
                     Startup.startServer := fun _ => Some (Error "listen EADDRINUSE") |})
           (Error "listen EADDRINUSE")).
  reflexivity.
Defined.
